(** * SPT liquefaction index: the calculator and the column reconciler

    A shallow embedding of the two decision procedures of
    [SSSLIaCBSPT.py]:

    - [calculate_liquefaction_index], the pure calculation behind every
      "Calculate" button;
    - [_normalize_text], [_auto_identify_columns] and the check of
      [preview_file], which map spreadsheet headers onto the four
      standard columns.

    Numbers.  The program computes on Python floats.  Rounding, overflow
    and NaN are not modelled: a number is an exact rational ([Q]), a literal
    such as [0.05] is the fraction it denotes (5/100), and the one
    [float('inf')] that the code writes is a constructor of its own
    ([PInf]).  Python integers ([intensity], [depth_criteria], the [N0]
    table) are [Z].

    Text.  A Python [str] is a sequence of code points; it is modelled as a
    list of code points ([N]), so that the range U+4E00..U+9FA5 of the
    regular expression can be written down. *)

From Stdlib Require Import ZArith QArith Qminmax NArith List Bool Lia Lqa.
From Stdlib Require Import String Ascii DecimalString.
Import ListNotations.

Local Open Scope Q_scope.

(** * Part I: the calculator *)

Module Calc.

(** ** Data *)

(** One entry of [data["layers"]]: [{"ds": .., "N": .., "di": ..}]. *)
Record layer := mk_layer {
  l_ds : Q;
  l_N  : Q;
  l_di : Q
}.

(** The argument of [calculate_liquefaction_index]. *)
Record data := mk_data {
  d_intensity      : Z;
  d_depth_criteria : Z;
  d_dw             : Q;
  d_layers         : list layer
}.

(** A float that may be [float('inf')]. *)
Inductive xnum :=
| Fin (q : Q)
| PInf.

(** The four strings the code assigns to [grade]. *)
Inductive grade := NoLiquefaction | Slight | Moderate | Severe.

Definition grade_text (g : grade) : string :=
  match g with
  | NoLiquefaction => "No liquefaction"
  | Slight => "Slight"
  | Moderate => "Moderate"
  | Severe => "Severe"
  end%string.

(** One dictionary appended to [results]. *)
Record layer_result := mk_layer_result {
  lr_ds  : Q;
  lr_N   : Q;
  lr_N0  : Z;
  lr_Ncr : Q;
  lr_FS  : xnum;
  lr_di  : Q;
  lr_wi  : Q;
  lr_contribution : Q
}.

(** The dictionary returned by [calculate_liquefaction_index]. *)
Record result := mk_result {
  r_intensity      : Z;
  r_depth_criteria : Z;
  r_dw             : Q;
  r_ile            : Q;
  r_grade          : grade;
  r_layers         : list layer_result
}.

(** Indexing [N0_map] with a missing key raises [KeyError]. *)
Inductive exn := KeyError (key : Z).

Inductive outcome (A : Type) :=
| Ok (a : A)
| Raise (e : exn).
Arguments Ok {A} a.
Arguments Raise {A} e.

(** ** Comparisons and [max] on numbers *)

Definition Qltb (a b : Q) : bool := negb (Qle_bool b a).

(** Python's [max(a, b)]: the first argument unless the second is larger. *)
Definition py_max (a b : Q) : Q := if Qltb a b then b else a.

(** [FS <= 1] where [FS] may be infinite. *)
Definition xle1 (x : xnum) : bool :=
  match x with
  | Fin q => Qle_bool q 1
  | PInf => false
  end.

(** ** The body of [calculate_liquefaction_index] *)

(** [N0_map = {7: 13, 8: 15, 9: 19}] *)
Definition N0_map : list (Z * Z) := [(7, 13); (8, 15); (9, 19)]%Z.

Fixpoint dict_get (m : list (Z * Z)) (k : Z) : outcome Z :=
  match m with
  | [] => Raise (KeyError k)
  | (k', v) :: m' => if Z.eqb k k' then Ok v else dict_get m' k
  end.

(** Lines 1014-1017. *)
Definition depth_factor (ds dw : Q) : Q :=
  if Qle_bool ds dw
  then 1.0 + 0.05 * (dw - ds)
  else 1.0 + 0.1 * (ds - dw).

(** Line 1018. *)
Definition Ncr (N0 : Z) (ds dw : Q) : Q := inject_Z N0 * depth_factor ds dw.

(** Line 1021: [layer["N"] / Ncr if Ncr != 0 else float('inf')]. *)
Definition FS (N ncr : Q) : xnum :=
  if negb (Qeq_bool ncr 0) then Fin (N / ncr) else PInf.

(** Lines 1024-1031. *)
Definition wi (ds : Q) : Q :=
  if Qle_bool ds 5 then 10.0
  else if Qle_bool ds 15 then 5.0
  else if Qle_bool ds 20 then 2.0
  else 0.0.

(** Line 1034: [max(0, 1 - FS) * layer["di"] * wi if FS <= 1 else 0].
    The product is evaluated only when [FS <= 1], hence only for a finite
    [FS]. *)
Definition contribution (fs : xnum) (di w : Q) : Q :=
  if xle1 fs then
    match fs with
    | Fin f => py_max 0 (1 - f) * di * w
    | PInf => 0
    end
  else 0.

(** One iteration of the loop: the dictionary appended for [layer]. *)
Definition layer_step (N0 : Z) (dw : Q) (l : layer) : layer_result :=
  let ds := l_ds l in
  let ncr := Ncr N0 ds dw in
  let fs := FS (l_N l) ncr in
  let w := wi ds in
  mk_layer_result ds (l_N l) N0 ncr fs (l_di l) w (contribution fs (l_di l) w).

(** [results = []; for layer in data["layers"]: ... results.append(...)] *)
Definition layer_loop (N0 : Z) (dw : Q) (layers : list layer) : list layer_result :=
  fold_left (fun results l => results ++ [layer_step N0 dw l]) layers [].

(** [sum(r["contribution"] for r in results)]: from 0, left to right. *)
Definition py_sum (xs : list Q) : Q := fold_left Qplus xs 0.

(** Lines 1051-1067. *)
Definition classify (ile : Q) (depth : Z) : grade :=
  if Qle_bool ile 0 then NoLiquefaction
  else if Z.eqb depth 15 then
    if Qle_bool ile 5 then Slight
    else if Qle_bool ile 15 then Moderate
    else Severe
  else
    if Qle_bool ile 6 then Slight
    else if Qle_bool ile 18 then Moderate
    else Severe.

Definition calculate_liquefaction_index (d : data) : outcome result :=
  match dict_get N0_map (d_intensity d) with
  | Raise e => Raise e
  | Ok n0 =>
      let dw := d_dw d in
      let results := layer_loop n0 dw (d_layers d) in
      let ile := py_sum (map lr_contribution results) in
      let depth := d_depth_criteria d in
      Ok (mk_result (d_intensity d) depth dw ile (classify ile depth) results)
  end.

(** ** The default point and the scenarios of the documentation *)

(** [_create_default_point], with [intensity] and [depth_criteria] already
    converted by [int(...)] as [get_manual_data] does. *)
Definition default_point : data :=
  mk_data 7 15 2.0
    [ mk_layer 1.5 12 3.0;
      mk_layer 4.5 14 3.0;
      mk_layer 7.5 16 3.0;
      mk_layer 10.5 18 3.0;
      mk_layer 13.5 20 3.0 ].


(** The same layer with a negative depth, blow count or thickness. *)
Definition negative_ds_point : data :=
  mk_data 7 15 2.0 [ mk_layer (-1.5) 12 3.0 ].
Definition negative_N_point : data :=
  mk_data 7 15 2.0 [ mk_layer 1.5 (-12) 3.0 ].
Definition negative_di_point : data :=
  mk_data 7 15 2.0 [ mk_layer 1.5 12 (-3.0) ].

(** A point without layers. *)
Definition empty_point : data := mk_data 8 20 2.0 [].

(** One layer that liquefies entirely ([N = 0]) and weighs 10: the index is
    ten times its thickness. *)
Definition one_layer_point (depth : Z) (di : Q) : data :=
  mk_data 7 depth 2.0 [ mk_layer 1.5 0 di ].

(** Layers whose depths sit on the three band boundaries. *)
Definition boundary_point : data :=
  mk_data 7 15 2.0
    [ mk_layer 5 12 3.0; mk_layer 15 12 3.0; mk_layer 20 12 3.0 ].

(** The default point with an intensity that the table does not have. *)
Definition intensity_6_point : data :=
  mk_data 6 15 2.0 (d_layers default_point).

(** The grades in the order of the classification table. *)
Definition grade_rank (g : grade) : nat :=
  match g with
  | NoLiquefaction => 0
  | Slight => 1
  | Moderate => 2
  | Severe => 3
  end.


(** The default point with every blow count raised by 5. *)
Definition denser_default_point : data :=
  mk_data 7 15 2.0
    [ mk_layer 1.5 17 3.0;
      mk_layer 4.5 19 3.0;
      mk_layer 7.5 21 3.0;
      mk_layer 10.5 23 3.0;
      mk_layer 13.5 25 3.0 ].

(** A layer that liquefies ([FS < 1]) above one that does not ([FS > 1]). *)
Definition mixed_point : data :=
  mk_data 7 15 2.0 [ mk_layer 1.5 12 3.0; mk_layer 4.5 40 3.0 ].


End Calc.

(** * Part II: the column reconciler *)

Module Reconciler.

Local Open Scope N_scope.

(** ** Text *)

Definition char := N.
Definition text := list char.

(** A literal of the source (all of them are ASCII) as text. *)
Definition py (s : string) : text := map N_of_ascii (list_ascii_of_string s).

Fixpoint text_eqb (a b : text) : bool :=
  match a, b with
  | [], [] => true
  | x :: a', y :: b' => N.eqb x y && text_eqb a' b'
  | _, _ => false
  end.

Fixpoint startswith (b a : text) : bool :=
  match a, b with
  | [], _ => true
  | x :: a', y :: b' => N.eqb x y && startswith b' a'
  | _ :: _, [] => false
  end.

(** [a in b] on strings: [a] occurs in [b] as a substring. *)
Fixpoint text_in (a b : text) : bool :=
  startswith b a ||
  match b with
  | [] => false
  | _ :: b' => text_in a b'
  end.

(** [sep.join(xs)] *)
Fixpoint join (sep : text) (xs : list text) : text :=
  match xs with
  | [] => []
  | [x] => x
  | x :: rest => x ++ sep ++ join sep rest
  end.

(** ** [_normalize_text] *)

Definition in_range (lo hi c : N) : bool := (lo <=? c) && (c <=? hi).

(** The characters that [re.sub] keeps: those of the class [a-z], [A-Z],
    [0-9] and U+4E00..U+9FA5, whose complement it replaces by nothing. *)
Definition kept (c : char) : bool :=
  in_range 97 122 c || in_range 65 90 c || in_range 48 57 c
  || in_range 0x4e00 0x9fa5 c.

(** [str.lower] on a kept character: only [A-Z] have a lower case. *)
Definition lower (c : char) : char :=
  if in_range 65 90 c then c + 32 else c.

Definition _normalize_text (t : text) : text :=
  match t with
  | [] => []
  | _ => map lower (filter kept t)
  end.

(** ** Python dictionaries from text to text, in insertion order *)

Definition dict := list (text * text).

(** [d[k] = v]: an existing key keeps its place. *)
Fixpoint dict_set (d : dict) (k v : text) : dict :=
  match d with
  | [] => [(k, v)]
  | (k', v') :: d' =>
      if text_eqb k k' then (k', v) :: d' else (k', v') :: dict_set d' k v
  end.

(** [d[k]] guarded by [k in d]. *)
Fixpoint dict_lookup (d : dict) (k : text) : option text :=
  match d with
  | [] => None
  | (k', v') :: d' => if text_eqb k k' then Some v' else dict_lookup d' k
  end.

(** ** [_auto_identify_columns] *)

(** [self.column_mapping], the alias library. *)
Definition column_mapping : list (text * list text) :=
  [ (py "Point ID",
      [py "Point ID"; py "Point No"; py "Measurement Point ID"; py "ID";
       py "Point Number"]);
    (py "Saturated soil depth ds(m)",
      [py "Saturated soil depth ds(m)"; py "Saturated depth(m)"; py "ds";
       py "Saturated depth"; py "Soil depth ds"; py "Depth ds"]);
    (py "Measured N-value",
      [py "Measured N-value"; py "N-value"; py "Measured penetration value";
       py "Standard penetration N"; py "N"; py "Blow count N"]);
    (py "Layer thickness di(m)",
      [py "Layer thickness di(m)"; py "Thickness di(m)";
       py "Soil layer thickness"; py "di"; py "Thickness(m)";
       py "Layer thickness di"]) ].

(** [{self._normalize_text(col): col for col in columns}] *)
Definition normalized_columns (columns : list text) : dict :=
  fold_left (fun d col => dict_set d (_normalize_text col) col) columns [].

(** [not best_match]: [None] and the empty string are false. *)
Definition falsy (v : option text) : bool :=
  match v with
  | None | Some [] => true
  | Some (_ :: _) => false
  end.

(** The loop over [aliases] (step 2), left by [break] at the first hit. *)
Fixpoint alias_loop (d : dict) (aliases : list text) : option text :=
  match aliases with
  | [] => None
  | alias :: rest =>
      match dict_lookup d (_normalize_text alias) with
      | Some col => Some col
      | None => alias_loop d rest
      end
  end.

(** The condition of the fuzzy loop (step 3) on one key. *)
Definition fuzzy_hit (std_normalized : text) (aliases : list text)
    (norm_col : text) : bool :=
  text_in std_normalized norm_col
  || existsb (fun a => text_in (_normalize_text a) norm_col) aliases.

(** The loop over [normalized_columns.items()], left at the first hit;
    without a hit [best_match] keeps its value. *)
Fixpoint fuzzy_loop (d : dict) (std_normalized : text) (aliases : list text)
    (best_match : option text) : option text :=
  match d with
  | [] => best_match
  | (norm_col, orig_col) :: d' =>
      if fuzzy_hit std_normalized aliases norm_col then Some orig_col
      else fuzzy_loop d' std_normalized aliases best_match
  end.

(** The body of the loop over [self.column_mapping.items()]: the value
    stored at [mapping[std_col]]. *)
Definition best_match (d : dict) (std_col : text) (aliases : list text)
    : option text :=
  let std_normalized := _normalize_text std_col in
  match dict_lookup d std_normalized with
  | Some col => Some col
  | None =>
      let best := alias_loop d aliases in
      if falsy best then fuzzy_loop d std_normalized aliases best else best
  end.

Definition _auto_identify_columns (columns : list text)
    : list (text * option text) :=
  let d := normalized_columns columns in
  map (fun entry => (fst entry, best_match d (fst entry) (snd entry)))
      column_mapping.

(** [mapping[std_col]] for a standard column; [None] is "not identified". *)
Fixpoint mapping_get (mapping : list (text * option text)) (std_col : text)
    : option text :=
  match mapping with
  | [] => None
  | (k, v) :: rest => if text_eqb std_col k then v else mapping_get rest std_col
  end.

(** ** The matching rule in the words of the specification *)

(** First header, in the order of the table, whose normalized form
    satisfies [p]. *)
Definition first_header (p : text -> bool) (headers : list text) : option text :=
  find (fun h => p (_normalize_text h)) headers.

(** Rule 2: aliases tried in listed order, the first one equal to a header
    after normalization decides. *)
Fixpoint spec_alias_match (aliases headers : list text) : option text :=
  match aliases with
  | [] => None
  | a :: rest =>
      match first_header (text_eqb (_normalize_text a)) headers with
      | Some h => Some h
      | None => spec_alias_match rest headers
      end
  end.

(** Rules 1 to 4 for one canonical field. *)
Definition spec_match (std_col : text) (aliases headers : list text)
    : option text :=
  match first_header (text_eqb (_normalize_text std_col)) headers with
  | Some h => Some h
  | None =>
      match spec_alias_match aliases headers with
      | Some h => Some h
      | None =>
          first_header (fuzzy_hit (_normalize_text std_col) aliases) headers
      end
  end.

(** Of the headers with the normalized form of [h], the last one ([h]
    itself when there is none). *)
Definition last_same (headers : list text) (h : text) : text :=
  fold_left
    (fun acc h' =>
       if text_eqb (_normalize_text h) (_normalize_text h') then h' else acc)
    headers h.

(** First item of a dictionary, in insertion order, whose key satisfies
    [P]. *)
Definition first_item (P : text -> bool) (d : dict) : option (text * text) :=
  find (fun kv => P (fst kv)) d.

(** ** [preview_file] and its check of the mapping *)

Inductive dialog :=
| showwarning (title message : text)
| showerror (title message : text).

Section Preview.

(** What belongs to pandas is taken as given: the data frame, its column
    labels, [pd.read_excel], and [df.groupby(col)] with the groups keyed by
    [str(point_id)].  So is [_update_data_stats], which fills a text widget
    with pandas statistics of the identified columns and may raise there
    (the mean of a column of strings, for one). *)
Variable frame : Type.
Variable columns_of : frame -> list text.
Variable groupby : frame -> text -> list (text * frame).

(** A call inside the [try] block: it returns, or raises [e]. *)
Inductive attempt (A : Type) :=
| Returned (a : A)
| Raised (e : text).

Variable read_excel : text -> attempt frame.
Variable _update_data_stats :
  frame -> list (text * option text) -> attempt unit.

(** The attributes of the window that [preview_file] assigns.  The widgets
    it redraws (labels, statistics, preview grid, combobox) are left out. *)
Record app := mk_app {
  imported_points : list (text * frame);
  current_column_mapping : list (text * option text);
  dialogs : list dialog
}.

(** [[col for col, val in mapping.items() if not val]] *)
Definition missing_columns (mapping : list (text * option text)) : list text :=
  map fst (filter (fun entry => falsy (snd entry)) mapping).

Definition identification_tip (missing : list text) : dialog :=
  showwarning (py "Identification Tip")
    (py "The following required columns were not identified, please check the table:"
       ++ [10] ++ join (py ", ") missing).

(** The [except] branch. *)
Definition reading_failed (st : app) (e : text) : app :=
  mk_app (imported_points st) (current_column_mapping st)
    (dialogs st ++ [showerror (py "Error") (py "File reading failed: " ++ e)]).

Definition preview_file (st : app) (file_path : text) : app :=
  let st := mk_app [] [] (dialogs st) in
  match read_excel file_path with
  | Raised _ e => reading_failed st e
  | Returned _ df =>
      let mapping := _auto_identify_columns (columns_of df) in
      let st := mk_app (imported_points st) mapping (dialogs st) in
      match _update_data_stats df mapping with
      | Raised _ e => reading_failed st e
      | Returned _ _ =>
          let missing := missing_columns mapping in
          match missing with
          | _ :: _ =>
              mk_app (imported_points st) (current_column_mapping st)
                (dialogs st ++ [identification_tip missing])
          | [] =>
              match mapping_get mapping (py "Point ID") with
              | Some point_col =>
                  mk_app (groupby df point_col) (current_column_mapping st)
                    (dialogs st)
              | None => st
              end
          end
      end
  end.

End Preview.

Arguments Returned {A} a.
Arguments Raised {A} e.
Arguments mk_app {frame} _ _ _.
Arguments imported_points {frame} _.
Arguments current_column_mapping {frame} _.
Arguments dialogs {frame} _.
Arguments preview_file {frame} _ _ _ _ _ _.

(** ** Tables used below *)

(** Two headers that differ only in punctuation, hence share the normalized
    form [myds]. *)
Definition duplicate_headers : list text :=
  [ py "Point ID"; py "my ds"; py "my_ds"; py "N"; py "di" ].

(** Headers equal to the standard columns. *)
Definition standard_headers : list text := map fst column_mapping.

(** A table with a recognizable depth column only. *)
Definition depth_only_headers : list text :=
  [ py "SaturatedDepthds"; py "Hole"; py "Blows"; py "Thick" ].

End Reconciler.

(** * Part II-b: the anti-liquefaction measures of the results page *)

Module Measures.

Local Open Scope string_scope.

(** [d.get(k)] on a dictionary with string keys. *)
Fixpoint str_get {A : Type} (d : list (string * A)) (k : string) : option A :=
  match d with
  | [] => None
  | (k', v) :: d' => if String.eqb k k' then Some v else str_get d' k
  end.

(** [anti_measures_map], Table 3. *)
Definition anti_measures_map : list (string * list (string * string)) :=
  [ ("Category B",
      [ ("Slight",
         "Partially eliminate liquefaction settlement, or treat foundation and superstructure");
        ("Moderate",
         "Completely eliminate liquefaction settlement, or partially eliminate and treat foundation and superstructure");
        ("Severe", "Completely eliminate liquefaction settlement") ]);
    ("Category C",
      [ ("Slight",
         "Treat foundation and superstructure, or no measures may be taken");
        ("Moderate",
         "Treat foundation and superstructure, or take more stringent measures");
        ("Severe",
         "Completely eliminate liquefaction settlement, or partially eliminate and treat foundation and superstructure") ]);
    ("Category D",
      [ ("Slight", "No measures may be taken");
        ("Moderate", "No measures may be taken");
        ("Severe",
         "Treat foundation and superstructure, or take other economical measures") ]) ].

(** What [_update_anti_measures] does: it sets [anti_measures_var], or the
    lookup of the building class raises [KeyError]. *)
Inductive display :=
| anti_measures_var_set (message : string)
| KeyError (key : string).

(** [current_grade] is [self.grade_var.get()] and [building_class] is
    [self.building_class_combobox.get()]. *)
Definition _update_anti_measures (current_grade building_class : string)
    : display :=
  if String.eqb current_grade "Not calculated"
     || String.eqb current_grade "No liquefaction"
  then
    anti_measures_var_set
      "Please calculate a valid liquefaction classification first"
  else
    match str_get anti_measures_map building_class with
    | None => KeyError building_class
    | Some measures =>
        match str_get measures current_grade with
        | Some message => anti_measures_var_set message
        | None => anti_measures_var_set "No corresponding measures"
        end
    end.

(** [_update_result_display] sets [grade_var] to [result["grade"]] and then
    calls [_update_anti_measures]. *)
Definition measures_of_result (r : Calc.result) (building_class : string)
    : display :=
  _update_anti_measures (Calc.grade_text (Calc.r_grade r)) building_class.

End Measures.

(** * Part II-c: the calculations of the import page *)

Module ImportPage.

Import Reconciler.

(** [str(n)] for a Python integer. *)
Definition str_int (n : Z) : text := py (NilZero.string_of_int (Z.to_int n)).

(** [self.results], a dictionary from point names to results, in insertion
    order. *)
Definition results_dict := list (text * Calc.result).

Fixpoint results_set (d : results_dict) (k : text) (v : Calc.result)
    : results_dict :=
  match d with
  | [] => [(k, v)]
  | (k', v') :: d' =>
      if text_eqb k k' then (k', v) :: d' else (k', v') :: results_set d' k v
  end.

Fixpoint results_get (d : results_dict) (k : text) : option Calc.result :=
  match d with
  | [] => None
  | (k', v') :: d' => if text_eqb k k' then Some v' else results_get d' k
  end.

(** What the three reads at the head of the [try] block give:
    [int(self.import_intensity_var.get())],
    [int(self.import_depth_var.get())] and [self.import_dw_var.get()], each
    of which returns a number or raises on text that is not one. *)
Record form := mk_form {
  import_intensity : attempt Z;
  import_depth : attempt Z;
  import_dw : attempt Q
}.

Section Page.

(** From pandas: [point_data.iterrows()] and [row[col]].  The cells of the
    identified columns are taken to be numbers. *)
Variable frame : Type.
Variable row : Type.
Variable iterrows : frame -> list row.
Variable cell : row -> text -> Q.

(** [repr] of a string, as [str] of a [KeyError] shows its key. *)
Variable repr : text -> text.

(** The attributes of the window that the two calculations of the import
    page read and assign: those of [preview_file], [self.results], and the
    [showinfo] dialogs, which are kept apart from the warnings and errors. *)
Record window := mk_window {
  page : app frame;
  results : results_dict;
  infos : list (text * text)
}.

Definition show (w : window) (d : dialog) : window :=
  mk_window
    (mk_app (imported_points (page w)) (current_column_mapping (page w))
       (dialogs (page w) ++ [d]))
    (results w) (infos w).

(** [not self.current_column_mapping or
     any(not val for val in self.current_column_mapping.values())] *)
Definition incomplete (mapping : list (text * option text)) : bool :=
  match mapping with
  | [] => true
  | _ :: _ => existsb (fun entry => falsy (snd entry)) mapping
  end.

(** [row[self.current_column_mapping[std_col]]]; indexing a row by [None]
    raises [KeyError]. *)
Definition row_cell (mapping : list (text * option text)) (r : row)
    (std_col : text) : attempt Q :=
  match mapping_get mapping std_col with
  | Some col => Returned (cell r col)
  | None => Raised (py "None")
  end.

(** One [layers.append({...})]. *)
Definition row_layer (mapping : list (text * option text)) (r : row)
    : attempt Calc.layer :=
  match row_cell mapping r (py "Saturated soil depth ds(m)") with
  | Raised e => Raised e
  | Returned ds =>
      match row_cell mapping r (py "Measured N-value") with
      | Raised e => Raised e
      | Returned N =>
          match row_cell mapping r (py "Layer thickness di(m)") with
          | Raised e => Raised e
          | Returned di => Returned (Calc.mk_layer ds N di)
          end
      end
  end.

(** The loop over [point_data.iterrows()]. *)
Fixpoint rows_layers (mapping : list (text * option text)) (rows : list row)
    : attempt (list Calc.layer) :=
  match rows with
  | [] => Returned []
  | r :: rest =>
      match row_layer mapping r with
      | Raised e => Raised e
      | Returned l =>
          match rows_layers mapping rest with
          | Raised e => Raised e
          | Returned ls => Returned (l :: ls)
          end
      end
  end.

(** Layers, calculation and [self.results[f"Imported Point {point_id}"] =
    result] for one point; an exception leaves [self.results] as it is. *)
Definition calculate_point (mapping : list (text * option text))
    (intensity depth_criteria : Z) (dw : Q) (point_id : text)
    (point_data : frame) (res : results_dict) : attempt results_dict :=
  match rows_layers mapping (iterrows point_data) with
  | Raised e => Raised e
  | Returned layers =>
      match
        Calc.calculate_liquefaction_index
          (Calc.mk_data intensity depth_criteria dw layers)
      with
      | Calc.Raise (Calc.KeyError key) => Raised (str_int key)
      | Calc.Ok result =>
          Returned (results_set res (py "Imported Point " ++ point_id) result)
      end
  end.

(** The loop over [self.imported_points.items()]: the results stored so
    far, and the exception that ended the loop, if any. *)
Fixpoint calculate_points (mapping : list (text * option text))
    (intensity depth_criteria : Z) (dw : Q) (points : list (text * frame))
    (res : results_dict) : results_dict * option text :=
  match points with
  | [] => (res, None)
  | (point_id, point_data) :: rest =>
      match
        calculate_point mapping intensity depth_criteria dw point_id
          point_data res
      with
      | Raised e => (res, Some e)
      | Returned res' =>
          calculate_points mapping intensity depth_criteria dw rest res'
      end
  end.

(** The [except] branch of both calculations. *)
Definition calculation_failed (w : window) (e : text) : window :=
  show w (showerror (py "Error") (py "Calculation failed: " ++ e)).

(** The display of the results that ends both [try] blocks.
    [_refresh_result_point_combobox] selects the first name of
    [self.results], and [_on_result_point_changed] hands its result to
    [_update_result_display], which sets [grade_var] to the grade of that
    result and ends in [_update_anti_measures].  There the text of the
    building class box, which can be edited, is looked up in the table: a
    [KeyError] leaves the [try] block, and [str] of it is [repr] of the key.
    The widgets that are redrawn on the way are left out. *)
Definition display_results (building_class : string) (res : results_dict)
    : attempt unit :=
  match res with
  | [] => Returned tt
  | (_, result) :: _ =>
      match Measures.measures_of_result result building_class with
      | Measures.anti_measures_var_set _ => Returned tt
      | Measures.KeyError key => Raised (repr (py key))
      end
  end.

Definition incomplete_warning : dialog :=
  showwarning (py "Warning")
    (py "Please first import data containing complete columns and ensure identification is successful").

(** [building_class] is the text of [self.building_class_combobox]. *)
Definition calculate_all_imported_points (building_class : string) (f : form)
    (w : window) : window :=
  if incomplete (current_column_mapping (page w)) then
    show w incomplete_warning
  else
    match imported_points (page w) with
    | [] => show w (showwarning (py "Warning") (py "Please first import data"))
    | points =>
        match import_intensity f with
        | Raised e => calculation_failed w e
        | Returned intensity =>
        match import_depth f with
        | Raised e => calculation_failed w e
        | Returned depth_criteria =>
        match import_dw f with
        | Raised e => calculation_failed w e
        | Returned dw =>
            let total_points := Z.of_nat (List.length points) in
            match
              calculate_points (current_column_mapping (page w)) intensity
                depth_criteria dw points (results w)
            with
            | (res, Some e) =>
                calculation_failed (mk_window (page w) res (infos w)) e
            | (res, None) =>
                match display_results building_class res with
                | Raised e =>
                    calculation_failed (mk_window (page w) res (infos w)) e
                | Returned _ =>
                    mk_window (page w) res
                      (infos w ++
                       [(py "Complete",
                         py "Successfully calculated " ++ str_int total_points
                         ++ py " points")])
                end
            end
        end end end
    end.

Fixpoint points_get (points : list (text * frame)) (k : text)
    : option frame :=
  match points with
  | [] => None
  | (k', v) :: rest => if text_eqb k k' then Some v else points_get rest k
  end.

(** [selection] is the state of the read-only combobox of the points:
    [None] when [current()] is -1, else the text that [get()] returns. *)
Definition calculate_import (building_class : string) (f : form)
    (selection : option text) (w : window) : window :=
  if incomplete (current_column_mapping (page w)) then
    show w incomplete_warning
  else
    match imported_points (page w), selection with
    | [], _ | _, None =>
        show w
          (showwarning (py "Warning")
             (py "Please first import data and select a calculation point"))
    | points, Some selected_point_id =>
        match points_get points selected_point_id with
        | None => calculation_failed w (repr selected_point_id)
        | Some point_data =>
        match import_intensity f with
        | Raised e => calculation_failed w e
        | Returned intensity =>
        match import_depth f with
        | Raised e => calculation_failed w e
        | Returned depth_criteria =>
        match import_dw f with
        | Raised e => calculation_failed w e
        | Returned dw =>
            match
              calculate_point (current_column_mapping (page w)) intensity
                depth_criteria dw selected_point_id point_data (results w)
            with
            | Raised e => calculation_failed w e
            | Returned res =>
                match display_results building_class res with
                | Raised e =>
                    calculation_failed (mk_window (page w) res (infos w)) e
                | Returned _ => mk_window (page w) res (infos w)
                end
            end
        end end end end
    end.

(** [preview_file] and [clear_import] on the window: neither touches
    [self.results]. *)
Variable columns_of : frame -> list text.
Variable groupby : frame -> text -> list (text * frame).
Variable read_excel : text -> attempt frame.
Variable _update_data_stats :
  frame -> list (text * option text) -> attempt unit.

Definition preview (w : window) (file_path : text) : window :=
  mk_window
    (preview_file columns_of groupby read_excel _update_data_stats (page w)
       file_path)
    (results w) (infos w).

Definition clear_import (w : window) : window :=
  mk_window (mk_app [] [] (dialogs (page w))) (results w) (infos w).

(** The table at [file_path] is rejected: it cannot be read, or its
    statistics raise, or a standard column is missing. *)
Definition rejected (file_path : text) : Prop :=
  match read_excel file_path with
  | Raised _ => True
  | Returned df =>
      let mapping := _auto_identify_columns (columns_of df) in
      (exists e, _update_data_stats df mapping = Raised e) \/
      missing_columns mapping <> []
  end.

End Page.

Arguments mk_window {frame} _ _ _.
Arguments page {frame} _.
Arguments results {frame} _.
Arguments infos {frame} _.
Arguments show {frame} _ _.
Arguments calculation_failed {frame} _ _.
Arguments calculate_all_imported_points {frame row} _ _ _ _ _ _.
Arguments calculate_import {frame row} _ _ _ _ _ _ _.
Arguments calculate_point {frame row} _ _ _ _ _ _ _ _ _.
Arguments calculate_points {frame row} _ _ _ _ _ _ _ _.
Arguments rows_layers {row} _ _ _.
Arguments preview {frame} _ _ _ _ _ _.
Arguments clear_import {frame} _.
Arguments rejected {frame} _ _ _ _.
Arguments points_get {frame} _ _.

(** ** A table for the examples *)

(** A frame as the list of its rows, a row as the list of its cells by
    column; all rows in one group, named after the grouping column. *)
Definition example_row := list (text * Q).
Definition example_frame := list example_row.

Definition example_cell (r : example_row) (col : text) : Q :=
  match find (fun c => text_eqb col (fst c)) r with
  | Some c => snd c
  | None => 0%Q
  end.

Definition example_columns (df : example_frame) : list text :=
  match df with
  | [] => []
  | r :: _ => map fst r
  end.

Definition example_groupby (df : example_frame) (col : text)
    : list (text * example_frame) := [(py "1", df)].

Definition example_table : example_frame :=
  map (fun l =>
         [ (py "Point ID", 1%Q);
           (py "Saturated soil depth ds(m)", Calc.l_ds l);
           (py "Measured N-value", Calc.l_N l);
           (py "Layer thickness di(m)", Calc.l_di l) ])
      (Calc.d_layers Calc.default_point).

(** The window after a preview of the example table. *)
Definition example_window : window example_frame :=
  mk_window
    (mk_app (example_groupby example_table (py "Point ID"))
       (_auto_identify_columns standard_headers) [])
    [] [].

Definition example_form (intensity : Z) : form :=
  mk_form (Returned intensity) (Returned 15%Z) (Returned 2.0%Q).

End ImportPage.

(** * Part II-d: the site points of the manual input page *)

Module ManualPage.

Import Reconciler.

(** One entry of [self.points]; [intensity] and [depth_criteria] are kept
    as the strings of the comboboxes. *)
Record point := mk_point {
  p_intensity : text;
  p_depth_criteria : text;
  p_dw : Q;
  p_layers : list Calc.layer
}.

Definition _create_default_point : point :=
  mk_point (py "7") (py "15") 2.0%Q (Calc.d_layers Calc.default_point).

(** The attributes of the window that the point and layer buttons read and
    assign.  [point_combobox] is the index that [point_combobox.current()]
    returns; [warnings] are the messages of [showwarning].  The entry
    widgets of the layers are left out. *)
Record tab := mk_tab {
  points : list point;
  current_point_idx : Z;
  point_combobox : Z;
  intensity_var : text;
  depth_var : text;
  dw_var : Q;
  warnings : list text
}.

Inductive exn := IndexError | TclError.

Inductive run (A : Type) :=
| Done (a : A)
| Raise (e : exn).
Arguments Done {A} a.
Arguments Raise {A} e.

(** The position that a Python list index denotes, counted from the end
    when negative; [None] when it is out of range. *)
Definition position {A : Type} (l : list A) (i : Z) : option nat :=
  let n := Z.of_nat (List.length l) in
  if (0 <=? i)%Z && (i <? n)%Z then Some (Z.to_nat i)
  else if (- n <=? i)%Z && (i <? 0)%Z then Some (Z.to_nat (n + i))
  else None.

(** [l[i]] *)
Definition getitem {A : Type} (l : list A) (i : Z) : run A :=
  match position l i with
  | Some k =>
      match nth_error l k with
      | Some x => Done x
      | None => Raise IndexError
      end
  | None => Raise IndexError
  end.

Fixpoint remove_at {A : Type} (l : list A) (k : nat) : list A :=
  match l, k with
  | [], _ => []
  | _ :: l', O => l'
  | x :: l', S k' => x :: remove_at l' k'
  end.

Fixpoint replace_at {A : Type} (l : list A) (k : nat) (y : A) : list A :=
  match l, k with
  | [], _ => []
  | _ :: l', O => y :: l'
  | x :: l', S k' => x :: replace_at l' k' y
  end.

(** [del l[i]] *)
Definition delitem {A : Type} (l : list A) (i : Z) : run (list A) :=
  match position l i with
  | Some k => Done (remove_at l k)
  | None => Raise IndexError
  end.

(** The dictionary [l[i]] replaced by [y], for a mutation in place of the
    point at [i]. *)
Definition update {A : Type} (l : list A) (i : Z) (y : A) : list A :=
  match position l i with
  | Some k => replace_at l k y
  | None => l
  end.

(** [_refresh_point_combobox]: the values are the names of the points and
    the current index is set, which Tk refuses when it is out of range. *)
Definition _refresh_point_combobox (st : tab) : run tab :=
  match points st with
  | [] => Done st
  | _ :: _ =>
      if (0 <=? current_point_idx st)%Z
         && (current_point_idx st <? Z.of_nat (List.length (points st)))%Z
      then
        Done (mk_tab (points st) (current_point_idx st) (current_point_idx st)
                (intensity_var st) (depth_var st) (dw_var st) (warnings st))
      else Raise TclError
  end.

(** [_refresh_layer_entries] reads [self.points[self.current_point_idx]];
    the entries it builds are not part of the state. *)
Definition _refresh_layer_entries (st : tab) : run tab :=
  match getitem (points st) (current_point_idx st) with
  | Done _ => Done st
  | Raise e => Raise e
  end.

Definition show_point (st : tab) (p : point) : tab :=
  mk_tab (points st) (current_point_idx st) (point_combobox st)
    (p_intensity p) (p_depth_criteria p) (p_dw p) (warnings st).

Definition warn (st : tab) (message : text) : tab :=
  mk_tab (points st) (current_point_idx st) (point_combobox st)
    (intensity_var st) (depth_var st) (dw_var st) (warnings st ++ [message]).

Definition _add_point (st : tab) : run tab :=
  let new_point := _create_default_point in
  let pts := points st ++ [new_point] in
  let st :=
    mk_tab pts (Z.of_nat (List.length pts) - 1) (point_combobox st)
      (intensity_var st) (depth_var st) (dw_var st) (warnings st) in
  match _refresh_point_combobox st with
  | Raise e => Raise e
  | Done st =>
      match _refresh_layer_entries st with
      | Raise e => Raise e
      | Done st => Done (show_point st new_point)
      end
  end.

Definition _on_point_changed (st : tab) : run tab :=
  let st :=
    mk_tab (points st) (point_combobox st) (point_combobox st)
      (intensity_var st) (depth_var st) (dw_var st) (warnings st) in
  match getitem (points st) (current_point_idx st) with
  | Raise e => Raise e
  | Done current_point =>
      _refresh_layer_entries (show_point st current_point)
  end.

(** The user picks entry [i] of the combobox; Tk then calls
    [_on_point_changed]. *)
Definition select_point (i : Z) (st : tab) : run tab :=
  _on_point_changed
    (mk_tab (points st) (current_point_idx st) i (intensity_var st)
       (depth_var st) (dw_var st) (warnings st)).

Definition _remove_point (st : tab) : run tab :=
  if (List.length (points st) <=? 1)%nat then
    Done (warn st (py "At least one site point must be retained"))
  else
    match delitem (points st) (current_point_idx st) with
    | Raise e => Raise e
    | Done pts =>
        let st :=
          mk_tab pts (Z.max 0 (current_point_idx st - 1)) (point_combobox st)
            (intensity_var st) (depth_var st) (dw_var st) (warnings st) in
        match _refresh_point_combobox st with
        | Raise e => Raise e
        | Done st => _on_point_changed st
        end
    end.

Definition set_layers (st : tab) (current_point : point)
    (layers : list Calc.layer) : tab :=
  mk_tab
    (update (points st) (current_point_idx st)
       (mk_point (p_intensity current_point) (p_depth_criteria current_point)
          (p_dw current_point) layers))
    (current_point_idx st) (point_combobox st) (intensity_var st)
    (depth_var st) (dw_var st) (warnings st).

Definition add_layer (st : tab) : run tab :=
  match getitem (points st) (current_point_idx st) with
  | Raise e => Raise e
  | Done current_point =>
      let layers := p_layers current_point in
      let last_ds :=
        match layers with
        | [] => 1.5%Q
        | _ :: _ => Calc.l_ds (last layers (Calc.mk_layer 0 0 0))
        end in
      let new_ds := (last_ds + 3.0)%Q in
      let new_N := inject_Z (12 + Z.of_nat (List.length layers) * 2) in
      let new_layer := Calc.mk_layer new_ds new_N 3.0%Q in
      _refresh_layer_entries
        (set_layers st current_point (layers ++ [new_layer]))
  end.

Definition remove_layer (st : tab) : run tab :=
  match getitem (points st) (current_point_idx st) with
  | Raise e => Raise e
  | Done current_point =>
      if (List.length (p_layers current_point) <=? 1)%nat then
        Done (warn st (py "At least one soil layer must be retained"))
      else
        _refresh_layer_entries
          (set_layers st current_point (removelast (p_layers current_point)))
  end.

Definition clear_manual_input (st : tab) : run tab :=
  let st :=
    mk_tab (points st) (current_point_idx st) (point_combobox st) (py "7")
      (py "15") 2.0%Q (warnings st) in
  match getitem (points st) (current_point_idx st) with
  | Raise e => Raise e
  | Done current_point =>
      _refresh_layer_entries
        (set_layers st current_point (p_layers _create_default_point))
  end.

(** The state that [__init__] and [init_manual_input] build. *)
Definition initial : tab :=
  mk_tab [_create_default_point] 0 0 (py "7") (py "15") 2.0%Q [].

(** What the operations keep: the current index is a position of the list
    of points, the combobox shows it, and every point has a layer. *)
Definition consistent (st : tab) : Prop :=
  (0 <= current_point_idx st < Z.of_nat (List.length (points st)))%Z /\
  point_combobox st = current_point_idx st /\
  Forall (fun p => p_layers p <> []) (points st).

End ManualPage.

(** * Part III: properties of the calculator *)

Section CalcFacts.

Import Calc.

(** ** Boolean comparisons on [Q] *)

Lemma Qle_bool_false (x y : Q) : Qle_bool x y = false <-> y < x.
Proof.
  split; intro H.
  - apply Qnot_le_lt. intro Hle. apply Qle_bool_iff in Hle. congruence.
  - destruct (Qle_bool x y) eqn:E; [|reflexivity].
    apply Qle_bool_iff in E. exfalso. apply (Qlt_not_le _ _ H E).
Qed.

Lemma Qle_bool_cases (x y : Q) :
  (x <= y /\ Qle_bool x y = true) \/ (y < x /\ Qle_bool x y = false).
Proof.
  destruct (Qle_bool x y) eqn:E.
  - left. split; [apply Qle_bool_iff; exact E | reflexivity].
  - right. split; [apply Qle_bool_false; exact E | reflexivity].
Qed.

Lemma py_max_Qmax (a b : Q) : py_max a b == Qmax a b.
Proof.
  unfold py_max, Qltb.
  destruct (Qle_bool_cases b a) as [[H E]|[H E]]; rewrite E; simpl.
  - symmetry. apply Q.max_l. exact H.
  - symmetry. apply Q.max_r. apply Qlt_le_weak. exact H.
Qed.


(** ** The table [N0_map] *)

Lemma N0_map_valid (i : Z) :
  In i [7; 8; 9]%Z ->
  exists n0, In (i, n0) N0_map /\ dict_get N0_map i = Ok n0.
Proof.
  simpl. intros [<-|[<-|[<-|[]]]].
  - exists 13%Z. simpl. auto.
  - exists 15%Z. simpl. auto.
  - exists 19%Z. simpl. auto.
Qed.

Lemma N0_map_invalid (i : Z) :
  ~ In i [7; 8; 9]%Z -> dict_get N0_map i = Raise (KeyError i).
Proof.
  intro H. simpl in *.
  destruct (Z.eqb_spec i 7); [exfalso; auto|].
  destruct (Z.eqb_spec i 8); [exfalso; auto|].
  destruct (Z.eqb_spec i 9); [exfalso; auto|].
  reflexivity.
Qed.

Lemma N0_map_positive (i n0 : Z) : In (i, n0) N0_map -> (13 <= n0)%Z.
Proof.
  simpl. intros [H|[H|[H|[]]]]; inversion H; lia.
Qed.

(** ** The loop builds one entry per layer, in order *)

Lemma layer_loop_from (N0 : Z) (dw : Q) (layers : list layer) (acc : list layer_result) :
  fold_left (fun results l => results ++ [layer_step N0 dw l]) layers acc
  = acc ++ map (layer_step N0 dw) layers.
Proof.
  revert acc. induction layers as [|l ls IH]; intro acc; simpl.
  - now rewrite app_nil_r.
  - rewrite IH, <- app_assoc. reflexivity.
Qed.

Lemma layer_loop_map (N0 : Z) (dw : Q) (layers : list layer) :
  layer_loop N0 dw layers = map (layer_step N0 dw) layers.
Proof. unfold layer_loop. now rewrite layer_loop_from. Qed.

(** The result for a valid intensity, written out. *)
Lemma calculate_valid (d : data) :
  In (d_intensity d) [7; 8; 9]%Z ->
  exists n0,
    In (d_intensity d, n0) N0_map /\
    let results := map (layer_step n0 (d_dw d)) (d_layers d) in
    let ile := py_sum (map lr_contribution results) in
    calculate_liquefaction_index d
    = Ok (mk_result (d_intensity d) (d_depth_criteria d) (d_dw d) ile
            (classify ile (d_depth_criteria d)) results).
Proof.
  intro Hi. destruct (N0_map_valid _ Hi) as (n0 & Hin & Hget).
  exists n0. split; [exact Hin|].
  unfold calculate_liquefaction_index. rewrite Hget, layer_loop_map. reflexivity.
Qed.

Lemma in_results (n0 : Z) (dw : Q) (layers : list layer) (lr : layer_result) :
  In lr (map (layer_step n0 dw) layers) ->
  exists l, In l layers /\ lr = layer_step n0 dw l.
Proof.
  intro H. apply in_map_iff in H. destruct H as (l & <- & Hl). eauto.
Qed.

(** ** Depth factor and critical blow count *)

Lemma depth_factor_ge_1 (ds dw : Q) : 1 <= depth_factor ds dw.
Proof.
  unfold depth_factor.
  destruct (Qle_bool_cases ds dw) as [[H E]|[H E]]; rewrite E; lra.
Qed.

Lemma Ncr_positive (i n0 : Z) (ds dw : Q) :
  In (i, n0) N0_map -> 0 < Ncr n0 ds dw.
Proof.
  intro Hin. apply N0_map_positive in Hin.
  unfold Ncr. pose proof (depth_factor_ge_1 ds dw) as Hdf.
  assert (Hn : 13 <= inject_Z n0).
  { change 13 with (inject_Z 13). rewrite <- Zle_Qle. exact Hin. }
  nra.
Qed.

Lemma Ncr_ge_N0 (n0 : Z) (ds dw : Q) :
  (0 <= n0)%Z -> inject_Z n0 <= Ncr n0 ds dw.
Proof.
  intro Hn. unfold Ncr. pose proof (depth_factor_ge_1 ds dw) as Hdf.
  assert (Hq : 0 <= inject_Z n0).
  { change 0 with (inject_Z 0). rewrite <- Zle_Qle. exact Hn. }
  nra.
Qed.

(** C1.  For a valid intensity the calculator returns a result with one
    entry per layer, in the order of the input; the entry of a layer
    carries [N0] from the table 7 -> 13, 8 -> 15, 9 -> 19, and its [Ncr] is
    [N0 * (1.0 + 0.05 * (dw - ds))] when [ds <= dw] and
    [N0 * (1.0 + 0.1 * (ds - dw))] when [ds > dw]. *)
Theorem C1_critical_blow_count (d : data) :
  In (d_intensity d) [7; 8; 9]%Z ->
  exists r n0,
    calculate_liquefaction_index d = Ok r /\
    In (d_intensity d, n0) [(7, 13); (8, 15); (9, 19)]%Z /\
    List.length (r_layers r) = List.length (d_layers d) /\
    forall i l, nth_error (d_layers d) i = Some l ->
      exists lr,
        nth_error (r_layers r) i = Some lr /\
        lr_ds lr = l_ds l /\ lr_N0 lr = n0 /\
        (l_ds l <= d_dw d ->
           lr_Ncr lr == inject_Z n0 * (1.0 + 0.05 * (d_dw d - l_ds l))) /\
        (d_dw d < l_ds l ->
           lr_Ncr lr == inject_Z n0 * (1.0 + 0.1 * (l_ds l - d_dw d))).
Proof.
  intro Hi. destruct (calculate_valid d Hi) as (n0 & Hin & Hcalc).
  eexists. exists n0. split; [exact Hcalc|]. split; [exact Hin|]. simpl.
  split; [apply length_map|].
  intros i l Hl. exists (layer_step n0 (d_dw d) l).
  split; [apply map_nth_error; exact Hl|].
  split; [reflexivity|]. split; [reflexivity|].
  simpl. unfold Ncr, depth_factor.
  destruct (Qle_bool_cases (l_ds l) (d_dw d)) as [[H E]|[H E]]; rewrite E;
    split; intro H'; try reflexivity; exfalso; lra.
Qed.

(** ** Per-layer contribution *)

Lemma FS_cases (N ncr : Q) :
  (~ ncr == 0 -> FS N ncr = Fin (N / ncr)) /\ (ncr == 0 -> FS N ncr = PInf).
Proof.
  unfold FS. split; intro H.
  - destruct (Qeq_bool ncr 0) eqn:E; [|reflexivity].
    apply Qeq_bool_iff in E. contradiction.
  - apply Qeq_bool_iff in H. now rewrite H.
Qed.

Lemma contribution_fin_le (f di w : Q) :
  f <= 1 -> contribution (Fin f) di w == Qmax 0 (1 - f) * di * w.
Proof.
  intro H. unfold contribution, xle1.
  apply Qle_bool_iff in H. rewrite H.
  now rewrite py_max_Qmax.
Qed.

Lemma contribution_fin_gt (f di w : Q) :
  1 < f -> contribution (Fin f) di w = 0.
Proof.
  intro H. unfold contribution, xle1.
  apply Qle_bool_false in H. now rewrite H.
Qed.

(** C2.  For a valid intensity the result has one entry per layer, in
    the order of the input, which records the layer's [ds], [N] and [di];
    its [FS] is the layer's [N] divided by its [Ncr], and its contribution
    is [max(0, 1 - FS) * di * wi] when [FS <= 1] and exactly 0 when
    [FS > 1], whatever [di] and [wi] are.  In particular no entry of a
    result with [FS > 1] (an infinite [FS] included) has a contribution
    other than 0. *)
Theorem C2_layer_contribution (d : data) :
  In (d_intensity d) [7; 8; 9]%Z ->
  exists r,
    calculate_liquefaction_index d = Ok r /\
    List.length (r_layers r) = List.length (d_layers d) /\
    (forall i l, nth_error (d_layers d) i = Some l ->
       exists lr,
         nth_error (r_layers r) i = Some lr /\
         lr_ds lr = l_ds l /\ lr_N lr = l_N l /\ lr_di lr = l_di l /\
         lr_FS lr = Fin (l_N l / lr_Ncr lr) /\
         (l_N l / lr_Ncr lr <= 1 ->
            lr_contribution lr
            == Qmax 0 (1 - l_N l / lr_Ncr lr) * l_di l * lr_wi lr) /\
         (1 < l_N l / lr_Ncr lr -> lr_contribution lr = 0)) /\
    (forall lr, In lr (r_layers r) ->
       match lr_FS lr with
       | Fin fs =>
           (fs <= 1 ->
              lr_contribution lr == Qmax 0 (1 - fs) * lr_di lr * lr_wi lr) /\
           (1 < fs -> lr_contribution lr = 0)
       | PInf => lr_contribution lr = 0
       end).
Proof.
  intro Hi. destruct (calculate_valid d Hi) as (n0 & Hin & Hcalc).
  eexists. split; [exact Hcalc|]. simpl.
  split; [apply length_map|]. split.
  - intros i l Hl. exists (layer_step n0 (d_dw d) l).
    split; [apply map_nth_error; exact Hl|].
    split; [reflexivity|]. split; [reflexivity|]. split; [reflexivity|].
    pose proof (Ncr_positive _ _ (l_ds l) (d_dw d) Hin) as Hpos.
    assert (HFS : FS (l_N l) (Ncr n0 (l_ds l) (d_dw d))
                  = Fin (l_N l / Ncr n0 (l_ds l) (d_dw d))).
    { apply FS_cases. intro E. rewrite E in Hpos. exact (Qlt_irrefl 0 Hpos). }
    simpl. rewrite HFS. split; [reflexivity|]. split; intro H.
    + now apply contribution_fin_le.
    + now apply contribution_fin_gt.
  - intros lr Hlr. apply in_results in Hlr. destruct Hlr as (l & _ & ->).
    simpl. destruct (FS (l_N l) (Ncr n0 (l_ds l) (d_dw d))) as [fs|].
    + split; intro H.
      * now apply contribution_fin_le.
      * now apply contribution_fin_gt.
    + reflexivity.
Qed.

(** ** The index *)

Lemma wi_nonneg (ds : Q) : 0 <= wi ds.
Proof.
  unfold wi.
  repeat match goal with
         | |- context [Qle_bool ?a ?b] => destruct (Qle_bool a b)
         end; lra.
Qed.


Lemma fold_plus_nonneg (xs : list Q) (acc : Q) :
  Forall (fun x => 0 <= x) xs -> 0 <= acc -> 0 <= fold_left Qplus xs acc.
Proof.
  intro H. revert acc. induction H as [|x xs Hx _ IH]; intros acc Hacc; simpl.
  - exact Hacc.
  - apply IH. lra.
Qed.



(** ** The grade *)

Lemma classify_Qeq (x y : Q) (depth : Z) :
  x == y -> classify x depth = classify y depth.
Proof.
  intro H.
  assert (E : forall c, Qle_bool x c = Qle_bool y c).
  { intro c. apply Qleb_comp; [exact H | reflexivity]. }
  unfold classify. now rewrite !E.
Qed.

Ltac bands :=
  repeat match goal with
         | |- context [Qle_bool ?a ?b] =>
             destruct (Qle_bool_cases a b) as [[? ->]|[? ->]]
         end;
  try reflexivity; exfalso; lra.

Lemma classify_no_liquefaction (ile : Q) (depth : Z) :
  ile <= 0 -> classify ile depth = NoLiquefaction.
Proof.
  intro H. unfold classify. apply Qle_bool_iff in H. now rewrite H.
Qed.

Lemma classify_15 (ile : Q) :
  (0 < ile /\ ile <= 5 -> classify ile 15 = Slight) /\
  (5 < ile /\ ile <= 15 -> classify ile 15 = Moderate) /\
  (15 < ile -> classify ile 15 = Severe).
Proof.
  unfold classify. simpl Z.eqb. cbv iota.
  repeat split; intros; bands.
Qed.

Lemma classify_not_15 (ile : Q) (depth : Z) :
  depth <> 15%Z ->
  (0 < ile /\ ile <= 6 -> classify ile depth = Slight) /\
  (6 < ile /\ ile <= 18 -> classify ile depth = Moderate) /\
  (18 < ile -> classify ile depth = Severe).
Proof.
  intro Hd. unfold classify.
  destruct (Z.eqb_spec depth 15) as [|_]; [contradiction|].
  repeat split; intros; bands.
Qed.

(** C4.  The grade of a result depends only on its [ILE] and on the depth
    criterion: [ILE <= 0] is "No liquefaction" for every criterion; with 15
    the bands are (0, 5], (5, 15] and above 15; with 20 they are (0, 6],
    (6, 18] and above 18; a value on a threshold belongs to the lower
    grade.  Two calculations with equal [ILE] and equal criterion get the
    same grade. *)
Theorem C4_grade (d : data) :
  In (d_intensity d) [7; 8; 9]%Z ->
  exists r,
    calculate_liquefaction_index d = Ok r /\
    r_depth_criteria r = d_depth_criteria d /\
    (r_ile r <= 0 -> r_grade r = NoLiquefaction) /\
    (d_depth_criteria d = 15%Z ->
       (0 < r_ile r /\ r_ile r <= 5 -> r_grade r = Slight) /\
       (5 < r_ile r /\ r_ile r <= 15 -> r_grade r = Moderate) /\
       (15 < r_ile r -> r_grade r = Severe)) /\
    (d_depth_criteria d = 20%Z ->
       (0 < r_ile r /\ r_ile r <= 6 -> r_grade r = Slight) /\
       (6 < r_ile r /\ r_ile r <= 18 -> r_grade r = Moderate) /\
       (18 < r_ile r -> r_grade r = Severe)) /\
    (forall d' r',
       calculate_liquefaction_index d' = Ok r' ->
       r_ile r' == r_ile r ->
       d_depth_criteria d' = d_depth_criteria d ->
       r_grade r' = r_grade r).
Proof.
  intro Hi. destruct (calculate_valid d Hi) as (n0 & Hin & Hcalc).
  eexists. split; [exact Hcalc|]. simpl.
  split; [reflexivity|]. split; [apply classify_no_liquefaction|].
  split; [intros ->; apply classify_15|].
  split; [intros ->; apply classify_not_15; discriminate|].
  intros d' r' Hcalc' Hile Hdepth.
  unfold calculate_liquefaction_index in Hcalc'.
  destruct (dict_get N0_map (d_intensity d')) as [n0'|]; [|discriminate].
  inversion Hcalc'; subst r'; clear Hcalc'. simpl in *.
  rewrite Hdepth. apply classify_Qeq. exact Hile.
Qed.

(** ** The depth weight *)

Lemma wi_bands (ds : Q) :
  (ds <= 5 -> wi ds == 10.0) /\
  (5 < ds /\ ds <= 15 -> wi ds == 5.0) /\
  (15 < ds /\ ds <= 20 -> wi ds == 2.0) /\
  (20 < ds -> wi ds == 0.0).
Proof.
  unfold wi.
  repeat split; intros;
    repeat match goal with
           | |- context [Qle_bool ?a ?b] =>
               destruct (Qle_bool_cases a b) as [[? ->]|[? ->]]
           end;
    try reflexivity; exfalso; lra.
Qed.

(** C5.  For a valid intensity the entry of each layer, in the order of
    the input, records the layer's [ds], and its weight is the step function
    of that depth: 10.0 up to 5, 5.0 above 5 up to 15, 2.0 above 15 up to
    20, and 0.0 above 20; a depth on a boundary takes the band it closes,
    so 5 weighs 10.0, 15 weighs 5.0 and 20 weighs 2.0. *)
Theorem C5_depth_weight (d : data) :
  In (d_intensity d) [7; 8; 9]%Z ->
  exists r,
    calculate_liquefaction_index d = Ok r /\
    List.length (r_layers r) = List.length (d_layers d) /\
    forall i l, nth_error (d_layers d) i = Some l ->
      exists lr,
        nth_error (r_layers r) i = Some lr /\
        lr_ds lr = l_ds l /\
        (l_ds l <= 5 -> lr_wi lr == 10.0) /\
        (5 < l_ds l /\ l_ds l <= 15 -> lr_wi lr == 5.0) /\
        (15 < l_ds l /\ l_ds l <= 20 -> lr_wi lr == 2.0) /\
        (20 < l_ds l -> lr_wi lr == 0.0) /\
        (l_ds l == 5 -> lr_wi lr == 10.0) /\
        (l_ds l == 15 -> lr_wi lr == 5.0) /\
        (l_ds l == 20 -> lr_wi lr == 2.0).
Proof.
  intro Hi. destruct (calculate_valid d Hi) as (n0 & Hin & Hcalc).
  eexists. split; [exact Hcalc|]. simpl.
  split; [apply length_map|].
  intros i l Hl. exists (layer_step n0 (d_dw d) l).
  split; [apply map_nth_error; exact Hl|].
  split; [reflexivity|]. simpl.
  pose proof (wi_bands (l_ds l)) as (H5 & H15 & H20 & H0).
  split; [exact H5|]. split; [exact H15|]. split; [exact H20|].
  split; [exact H0|].
  repeat split; intro E; [apply H5 | apply H15 | apply H20]; lra.
Qed.

(** ** The safety factor *)


(** C6.  The safety factor is [N / Ncr] when [Ncr != 0] and infinite when
    [Ncr == 0].  For a valid intensity the entry of each layer, in the order
    of the input, records the layer's [ds] and [N], and its [FS] is that
    function of the layer's [N] and of its [Ncr]; with [dw >= 0] and
    [ds >= 0], [N0] is positive and [Ncr] is at least [N0] (the depth factor
    is at least 1), hence strictly positive, so that [FS] is the quotient
    and the other branch is not taken. *)
Theorem C6_safety_factor (d : data) :
  In (d_intensity d) [7; 8; 9]%Z ->
  0 <= d_dw d ->
  (forall N ncr,
     (~ ncr == 0 -> FS N ncr = Fin (N / ncr)) /\
     (ncr == 0 -> FS N ncr = PInf)) /\
  exists r,
    calculate_liquefaction_index d = Ok r /\
    List.length (r_layers r) = List.length (d_layers d) /\
    forall i l, nth_error (d_layers d) i = Some l ->
      exists lr,
        nth_error (r_layers r) i = Some lr /\
        lr_ds lr = l_ds l /\ lr_N lr = l_N l /\
        lr_FS lr = FS (l_N l) (lr_Ncr lr) /\
        (~ lr_Ncr lr == 0 -> lr_FS lr = Fin (l_N l / lr_Ncr lr)) /\
        (lr_Ncr lr == 0 -> lr_FS lr = PInf) /\
        (0 <= l_ds l ->
           (0 < lr_N0 lr)%Z /\ inject_Z (lr_N0 lr) <= lr_Ncr lr /\
           0 < lr_Ncr lr /\ lr_FS lr = Fin (l_N l / lr_Ncr lr)).
Proof.
  intros Hi _. split; [exact FS_cases|].
  destruct (calculate_valid d Hi) as (n0 & Hin & Hcalc).
  eexists. split; [exact Hcalc|]. simpl.
  split; [apply length_map|].
  intros i l Hl. exists (layer_step n0 (d_dw d) l).
  split; [apply map_nth_error; exact Hl|].
  split; [reflexivity|]. split; [reflexivity|]. split; [reflexivity|]. simpl.
  pose proof (FS_cases (l_N l) (Ncr n0 (l_ds l) (d_dw d))) as [Hne Heq].
  split; [exact Hne|]. split; [exact Heq|].
  intros _. pose proof (Ncr_positive _ _ (l_ds l) (d_dw d) Hin) as Hpos.
  pose proof (N0_map_positive _ _ Hin) as Hn0.
  split; [lia|]. split; [apply Ncr_ge_N0; lia|].
  split; [exact Hpos|]. apply Hne. intro E. rewrite E in Hpos.
  exact (Qlt_irrefl 0 Hpos).
Qed.

(** ** Which inputs are rejected *)

(** C7, as the code has it.  An intensity outside 7, 8, 9 makes the lookup
    in [N0_map] raise [KeyError] before any layer is looked at, and no
    result is produced; every other input, whatever the signs of [ds], [N]
    and [di], yields a result. *)
Theorem C7_only_intensity_is_checked (d : data) :
  (~ In (d_intensity d) [7; 8; 9]%Z ->
     calculate_liquefaction_index d = Raise (KeyError (d_intensity d))) /\
  (In (d_intensity d) [7; 8; 9]%Z ->
     exists r,
       calculate_liquefaction_index d = Ok r /\
       List.length (r_layers r) = List.length (d_layers d)).
Proof.
  split; intro Hi.
  - unfold calculate_liquefaction_index. now rewrite (N0_map_invalid _ Hi).
  - destruct (calculate_valid d Hi) as (n0 & Hin & Hcalc).
    eexists. split; [exact Hcalc|]. simpl. apply length_map.
Qed.

(** C7 does not extend to the layers: a negative [ds], a negative [N] and a
    negative [di] are each accepted and a result is returned. *)
Lemma C7_negative_inputs_accepted :
  (exists l r, In l (d_layers negative_ds_point) /\ l_ds l < 0 /\
     calculate_liquefaction_index negative_ds_point = Ok r) /\
  (exists l r, In l (d_layers negative_N_point) /\ l_N l < 0 /\
     calculate_liquefaction_index negative_N_point = Ok r) /\
  (exists l r, In l (d_layers negative_di_point) /\ l_di l < 0 /\
     calculate_liquefaction_index negative_di_point = Ok r).
Proof.
  repeat split; eexists; eexists;
    (split; [left; reflexivity|]); (split; [reflexivity|]); reflexivity.
Qed.

(** ** A depth criterion other than 15 *)

(** C10.  The depth criterion is not checked: for a valid intensity and any
    criterion other than 15 (20, but also 17 or 0) a result is returned,
    it records the criterion as given, and its grade follows the 20 m bands:
    "No liquefaction" for [ILE <= 0], "Slight" up to 6, "Moderate" up to 18,
    "Severe" above. *)
Theorem C10_other_depth_uses_20m_bands (d : data) :
  In (d_intensity d) [7; 8; 9]%Z ->
  d_depth_criteria d <> 15%Z ->
  exists r,
    calculate_liquefaction_index d = Ok r /\
    r_depth_criteria r = d_depth_criteria d /\
    (r_ile r <= 0 -> r_grade r = NoLiquefaction) /\
    (0 < r_ile r /\ r_ile r <= 6 -> r_grade r = Slight) /\
    (6 < r_ile r /\ r_ile r <= 18 -> r_grade r = Moderate) /\
    (18 < r_ile r -> r_grade r = Severe).
Proof.
  intros Hi Hd. destruct (calculate_valid d Hi) as (n0 & Hin & Hcalc).
  eexists. split; [exact Hcalc|]. simpl.
  split; [reflexivity|]. split; [apply classify_no_liquefaction|].
  apply classify_not_15. exact Hd.
Qed.

(** ** The scenarios of the documentation *)

(** One layer [ds = 1.5], [N = 12], [di = 3.0] under intensity 7 and
    [dw = 2.0]: [Ncr = 13.325], the weight is 10, the index is about 2.983
    and the grade is "Slight". *)
Example scenario_A :
  exists r lr,
    calculate_liquefaction_index (mk_data 7 15 2.0 [mk_layer 1.5 12 3.0])
    = Ok r /\
    r_layers r = [lr] /\ lr_N0 lr = 13%Z /\ lr_Ncr lr == 13.325 /\
    lr_FS lr = Fin (lr_N lr / lr_Ncr lr) /\ lr_wi lr == 10 /\
    r_ile r == lr_contribution lr /\
    2.983 < r_ile r /\ r_ile r < 2.984 /\ r_grade r = Slight.
Proof.
  eexists. eexists. split; [reflexivity|]. split; [reflexivity|].
  vm_compute. repeat split; reflexivity.
Qed.

(** The default point of the window: five layers, graded by the sum of
    their five contributions. *)
Example scenario_B :
  exists r,
    calculate_liquefaction_index default_point = Ok r /\
    r_ile r
    == (39750 # 13325) + (6750 # 1625) + (6225 # 2015) + (9075 # 2405)
       + (11925 # 2795) /\
    15 < r_ile r /\ r_grade r = Severe.
Proof.
  eexists. split; [reflexivity|]. vm_compute. repeat split; reflexivity.
Qed.

(** No layers: index 0, "No liquefaction", an ordinary result. *)
Example empty_point_result :
  calculate_liquefaction_index empty_point
  = Ok (mk_result 8 20 2.0 0 NoLiquefaction []).
Proof. reflexivity. Qed.

(** Just above a boundary the next band applies. *)
Example just_above_boundaries :
  wi 5.0001 = 5.0 /\ classify 5.0001 15 = Moderate /\ classify 5.0 15 = Slight.
Proof. vm_compute. repeat split; reflexivity. Qed.

(** ** The theorems at concrete points *)

Lemma C1_witness :
  exists r n0,
    calculate_liquefaction_index default_point = Ok r /\
    In (7%Z, n0) [(7, 13); (8, 15); (9, 19)]%Z /\
    List.length (r_layers r) = 5%nat.
Proof.
  destruct (C1_critical_blow_count default_point)
    as (r & n0 & Hc & Hin & Hlen & _); [simpl; auto|].
  exists r, n0. auto.
Defined.

Lemma C2_witness :
  exists r lr1 lr2,
    calculate_liquefaction_index mixed_point = Ok r /\
    r_layers r = [lr1; lr2] /\
    lr_FS lr1 = Fin (12 / lr_Ncr lr1) /\ 12 / lr_Ncr lr1 <= 1 /\
    lr_contribution lr1 == Qmax 0 (1 - 12 / lr_Ncr lr1) * 3.0 * lr_wi lr1 /\
    0 < lr_contribution lr1 /\
    lr_FS lr2 = Fin (40 / lr_Ncr lr2) /\ 1 < 40 / lr_Ncr lr2 /\
    lr_contribution lr2 = 0.
Proof.
  destruct (C2_layer_contribution mixed_point) as (r & Hc & _ & H & _);
    [simpl; auto|].
  destruct (H 0%nat (mk_layer 1.5 12 3.0) eq_refl)
    as (lr1 & H1 & _ & _ & _ & HFS1 & Hle1 & _).
  destruct (H 1%nat (mk_layer 4.5 40 3.0) eq_refl)
    as (lr2 & H2 & _ & _ & _ & HFS2 & _ & Hgt2).
  simpl l_N in *. simpl l_di in *.
  exists r, lr1, lr2. split; [exact Hc|].
  vm_compute in Hc. injection Hc as <-.
  simpl in H1, H2. injection H1 as <-. injection H2 as <-.
  assert (L1 : 12 / lr_Ncr (layer_step 13 2.0 (mk_layer 1.5 12 3.0)) <= 1)
    by (vm_compute; discriminate).
  assert (L2 : 1 < 40 / lr_Ncr (layer_step 13 2.0 (mk_layer 4.5 40 3.0)))
    by (vm_compute; reflexivity).
  split; [reflexivity|].
  split; [exact HFS1|]. split; [exact L1|]. split; [exact (Hle1 L1)|].
  split; [vm_compute; reflexivity|].
  split; [exact HFS2|]. split; [exact L2|]. exact (Hgt2 L2).
Defined.


Lemma C4_witness :
  exists r,
    calculate_liquefaction_index (one_layer_point 15 0.5) = Ok r /\
    r_ile r == 5 /\ r_grade r = Slight.
Proof.
  destruct (C4_grade (one_layer_point 15 0.5))
    as (r & Hc & _ & _ & H15 & _); [simpl; auto|].
  assert (Hile : r_ile r == 5).
  { vm_compute in Hc. injection Hc as <-. reflexivity. }
  exists r. split; [exact Hc|]. split; [exact Hile|].
  apply H15; [reflexivity|]. rewrite Hile. split; [reflexivity | discriminate].
Defined.

Lemma C5_witness :
  exists r lr5 lr15 lr20,
    calculate_liquefaction_index boundary_point = Ok r /\
    r_layers r = [lr5; lr15; lr20] /\
    lr_ds lr5 = 5 /\ lr_wi lr5 == 10.0 /\
    lr_ds lr15 = 15 /\ lr_wi lr15 == 5.0 /\
    lr_ds lr20 = 20 /\ lr_wi lr20 == 2.0.
Proof.
  destruct (C5_depth_weight boundary_point) as (r & Hc & _ & H);
    [simpl; auto|].
  destruct (H 0%nat (mk_layer 5 12 3.0) eq_refl)
    as (lr5 & H1 & D1 & _ & _ & _ & _ & W1 & _).
  destruct (H 1%nat (mk_layer 15 12 3.0) eq_refl)
    as (lr15 & H2 & D2 & _ & _ & _ & _ & _ & W2 & _).
  destruct (H 2%nat (mk_layer 20 12 3.0) eq_refl)
    as (lr20 & H3 & D3 & _ & _ & _ & _ & _ & _ & W3).
  simpl l_ds in *.
  exists r, lr5, lr15, lr20. split; [exact Hc|].
  split.
  - vm_compute in Hc. injection Hc as <-.
    simpl in H1, H2, H3. injection H1 as <-. injection H2 as <-.
    injection H3 as <-. reflexivity.
  - split; [exact D1|]. split; [apply W1; reflexivity|].
    split; [exact D2|]. split; [apply W2; reflexivity|].
    split; [exact D3|]. apply W3; reflexivity.
Defined.

Lemma C6_witness :
  exists r lr,
    calculate_liquefaction_index default_point = Ok r /\
    nth_error (r_layers r) 0 = Some lr /\
    lr_N lr = 12 /\ lr_Ncr lr == 13.325 /\ 0 < lr_Ncr lr /\
    lr_FS lr = Fin (12 / lr_Ncr lr).
Proof.
  destruct (C6_safety_factor default_point) as (_ & r & Hc & _ & H);
    [simpl; auto | simpl; discriminate |].
  destruct (H 0%nat (mk_layer 1.5 12 3.0) eq_refl)
    as (lr & H1 & _ & HN & _ & _ & _ & Hpos).
  destruct Hpos as (_ & _ & Hncr & HFS); [simpl; discriminate|].
  simpl l_N in *.
  exists r, lr. split; [exact Hc|]. split; [exact H1|].
  split; [exact HN|]. split; [|split; [exact Hncr | exact HFS]].
  vm_compute in Hc. injection Hc as <-. simpl in H1. injection H1 as <-.
  vm_compute. reflexivity.
Defined.

Lemma C7_witness :
  calculate_liquefaction_index intensity_6_point = Raise (KeyError 6) /\
  exists r, calculate_liquefaction_index default_point = Ok r.
Proof.
  split.
  - apply (proj1 (C7_only_intensity_is_checked intensity_6_point)).
    simpl. intros [H|[H|[H|[]]]]; discriminate H.
  - destruct (proj2 (C7_only_intensity_is_checked default_point))
      as (r & Hc & _); [simpl; auto|].
    exists r. exact Hc.
Defined.

Lemma C10_witness :
  exists r,
    calculate_liquefaction_index (one_layer_point 17 0.55) = Ok r /\
    r_depth_criteria r = 17%Z /\ r_grade r = Slight.
Proof.
  destruct (C10_other_depth_uses_20m_bands (one_layer_point 17 0.55))
    as (r & Hc & Hd & _ & Hs & _); [simpl; auto | simpl; discriminate |].
  exists r. split; [exact Hc|]. split; [exact Hd|].
  apply Hs. vm_compute in Hc. injection Hc as <-.
  split; [reflexivity | discriminate].
Defined.

End CalcFacts.

(** * Part IV: properties of the column reconciler *)

Section ReconcilerFacts.

Import Reconciler.

Local Abbreviation norm := _normalize_text.

(** ** Text and dictionaries *)

Lemma text_eqb_spec (a b : text) : reflect (a = b) (text_eqb a b).
Proof.
  revert b. induction a as [|x a IH]; intros [|y b]; simpl;
    try (constructor; congruence).
  destruct (N.eqb_spec x y) as [->|Hxy]; simpl.
  - destruct (IH b) as [->|Hab]; constructor; congruence.
  - constructor. congruence.
Qed.

Lemma text_eqb_refl (a : text) : text_eqb a a = true.
Proof. destruct (text_eqb_spec a a); congruence. Qed.

Lemma dict_lookup_set (d : dict) (k v q : text) :
  dict_lookup (dict_set d k v) q
  = if text_eqb q k then Some v else dict_lookup d q.
Proof.
  induction d as [|[k0 v0] d IH]; simpl; [reflexivity|].
  destruct (text_eqb_spec k k0) as [->|Hk]; simpl.
  - destruct (text_eqb_spec q k0); reflexivity.
  - destruct (text_eqb_spec q k0) as [->|Hq]; [|exact IH].
    destruct (text_eqb_spec k0 k); [congruence | reflexivity].
Qed.

Lemma dict_set_keys (d : dict) (k v q : text) :
  In q (map fst (dict_set d k v)) <-> q = k \/ In q (map fst d).
Proof.
  induction d as [|[k0 v0] d IH]; simpl.
  - intuition auto.
  - destruct (text_eqb_spec k k0) as [->|Hk]; simpl.
    + intuition auto.
    + rewrite IH. intuition auto.
Qed.

Lemma dict_set_nodup (d : dict) (k v : text) :
  NoDup (map fst d) -> NoDup (map fst (dict_set d k v)).
Proof.
  induction d as [|[k0 v0] d IH]; simpl; intro H.
  - constructor; [intros [] | constructor].
  - inversion H as [|? ? Hnotin Hd]; subst.
    destruct (text_eqb_spec k k0) as [->|Hk]; simpl.
    + constructor; assumption.
    + constructor; [|apply IH; exact Hd].
      rewrite dict_set_keys. intros [E|Hin]; [congruence | contradiction].
Qed.

Lemma first_item_key (P : text -> bool) (d : dict) (k v : text) :
  first_item P d = Some (k, v) -> In k (map fst d).
Proof.
  intro H. apply find_some in H. destruct H as [H _].
  apply (in_map fst) in H. exact H.
Qed.

Lemma first_item_none (P : text -> bool) (d : dict) (k : text) :
  first_item P d = None -> In k (map fst d) -> P k = false.
Proof.
  intros H Hin. apply in_map_iff in Hin. destruct Hin as ([k' v'] & <- & Hin).
  exact (find_none _ _ H _ Hin).
Qed.

Lemma first_item_set (P : text -> bool) (d : dict) (k v : text) :
  NoDup (map fst d) ->
  first_item P (dict_set d k v)
  = match first_item P d with
    | Some (k', v') => Some (k', if text_eqb k k' then v else v')
    | None => if P k then Some (k, v) else None
    end.
Proof.
  induction d as [|[k0 v0] d IH]; simpl; intro H.
  - unfold first_item. simpl. destruct (P k); reflexivity.
  - inversion H as [|? ? Hnotin Hd]; subst.
    destruct (text_eqb_spec k k0) as [->|Hk].
    + unfold first_item. simpl. destruct (P k0) eqn:HP.
      * now rewrite text_eqb_refl.
      * fold (first_item P d). destruct (first_item P d) as [[k' v']|] eqn:E.
        -- apply first_item_key in E.
           destruct (text_eqb_spec k0 k'); [congruence | reflexivity].
        -- reflexivity.
    + unfold first_item. simpl. destruct (P k0) eqn:HP.
      * destruct (text_eqb_spec k k0); [congruence | reflexivity].
      * apply IH. exact Hd.
Qed.

Lemma fuzzy_loop_first_item (d : dict) (s : text) (al : list text)
    (best : option text) :
  fuzzy_loop d s al best
  = match first_item (fuzzy_hit s al) d with
    | Some kv => Some (snd kv)
    | None => best
    end.
Proof.
  induction d as [|[k0 v0] d IH]; simpl; [reflexivity|].
  unfold first_item. simpl. destruct (fuzzy_hit s al k0); [reflexivity|].
  exact IH.
Qed.

(** ** The dictionary of normalized headers *)

Lemma normalized_columns_snoc (hs : list text) (x : text) :
  normalized_columns (hs ++ [x])
  = dict_set (normalized_columns hs) (norm x) x.
Proof. unfold normalized_columns. now rewrite fold_left_app. Qed.

Lemma normalized_columns_nodup (hs : list text) :
  NoDup (map fst (normalized_columns hs)).
Proof.
  induction hs as [|x hs IH] using rev_ind.
  - constructor.
  - rewrite normalized_columns_snoc. apply dict_set_nodup. exact IH.
Qed.

Lemma first_header_snoc (P : text -> bool) (hs : list text) (x : text) :
  first_header P (hs ++ [x])
  = match first_header P hs with
    | Some h => Some h
    | None => if P (norm x) then Some x else None
    end.
Proof.
  unfold first_header. induction hs as [|h hs IH]; simpl.
  - reflexivity.
  - destruct (P (norm h)); [reflexivity | exact IH].
Qed.

Lemma last_same_snoc (hs : list text) (x h : text) :
  last_same (hs ++ [x]) h
  = if text_eqb (norm h) (norm x) then x else last_same hs h.
Proof. unfold last_same. now rewrite fold_left_app. Qed.

Lemma first_header_some (P : text -> bool) (hs : list text) (h : text) :
  first_header P hs = Some h -> In h hs /\ P (norm h) = true.
Proof. intro H. apply find_some in H. exact H. Qed.

(** Looking a key up yields the last header with that normalized form. *)
Lemma lookup_normalized_columns (hs : list text) (k : text) :
  dict_lookup (normalized_columns hs) k
  = option_map (last_same hs) (first_header (text_eqb k) hs).
Proof.
  induction hs as [|x hs IH] using rev_ind; [reflexivity|].
  rewrite normalized_columns_snoc, dict_lookup_set, first_header_snoc, IH.
  destruct (first_header (text_eqb k) hs) as [h|] eqn:E; simpl.
  - apply first_header_some in E. destruct E as [_ E].
    destruct (text_eqb_spec k (norm h)) as [->|]; [|discriminate].
    rewrite last_same_snoc. destruct (text_eqb (norm h) (norm x)); reflexivity.
  - destruct (text_eqb k (norm x)); simpl; [|reflexivity].
    now rewrite last_same_snoc, text_eqb_refl.
Qed.

(** Scanning the items finds the normalized form of the first qualifying
    header, paired with the last header of that form. *)
Lemma first_item_normalized_columns (P : text -> bool) (hs : list text) :
  first_item P (normalized_columns hs)
  = option_map (fun h => (norm h, last_same hs h)) (first_header P hs).
Proof.
  induction hs as [|x hs IH] using rev_ind; [reflexivity|].
  rewrite normalized_columns_snoc, first_header_snoc.
  rewrite first_item_set by apply normalized_columns_nodup.
  rewrite IH. destruct (first_header P hs) as [h|] eqn:E; simpl.
  - rewrite last_same_snoc.
    destruct (text_eqb_spec (norm x) (norm h)) as [Exh|Hxh];
      destruct (text_eqb_spec (norm h) (norm x)); congruence.
  - destruct (P (norm x)); simpl; [|reflexivity].
    now rewrite last_same_snoc, text_eqb_refl.
Qed.

Lemma last_same_norm (hs : list text) (h : text) :
  norm (last_same hs h) = norm h.
Proof.
  induction hs as [|x hs IH] using rev_ind; [reflexivity|].
  rewrite last_same_snoc.
  destruct (text_eqb_spec (norm h) (norm x)); congruence.
Qed.

Lemma last_same_id (hs : list text) (h : text) :
  (forall h', In h' hs -> norm h' = norm h -> h' = h) ->
  last_same hs h = h.
Proof.
  induction hs as [|x hs IH] using rev_ind; intro H; [reflexivity|].
  rewrite last_same_snoc.
  destruct (text_eqb_spec (norm h) (norm x)) as [E|_].
  - apply H; [apply in_or_app; right; left; reflexivity | congruence].
  - apply IH. intros h' Hin. apply H. apply in_or_app. left. exact Hin.
Qed.

Lemma NoDup_map_eq (hs : list text) (a b : text) :
  NoDup (map norm hs) -> In a hs -> In b hs -> norm a = norm b -> a = b.
Proof.
  induction hs as [|x hs IH]; simpl; [contradiction|].
  intros H Ha Hb E. inversion H as [|? ? Hnotin Hd]; subst.
  destruct Ha as [->|Ha], Hb as [->|Hb].
  - reflexivity.
  - exfalso. apply Hnotin. rewrite E. apply in_map. exact Hb.
  - exfalso. apply Hnotin. rewrite <- E. apply in_map. exact Ha.
  - apply IH; assumption.
Qed.

(** ** The alias loop *)

Lemma alias_loop_spec (hs aliases : list text) :
  alias_loop (normalized_columns hs) aliases
  = option_map (last_same hs) (spec_alias_match aliases hs).
Proof.
  induction aliases as [|a rest IH]; simpl; [reflexivity|].
  rewrite lookup_normalized_columns.
  destruct (first_header (text_eqb (norm a)) hs); simpl; [reflexivity|].
  exact IH.
Qed.

Lemma spec_alias_match_some (aliases hs : list text) (h : text) :
  spec_alias_match aliases hs = Some h ->
  In h hs /\ exists a, In a aliases /\ norm a = norm h.
Proof.
  induction aliases as [|a rest IH]; simpl; [discriminate|].
  destruct (first_header (text_eqb (norm a)) hs) as [h0|] eqn:E.
  - intro H. injection H as <-. apply first_header_some in E.
    destruct E as [Hin E]. split; [exact Hin|]. exists a.
    split; [left; reflexivity|].
    destruct (text_eqb_spec (norm a) (norm h0)); congruence.
  - intro H. destruct (IH H) as (Hin & a' & Ha' & E').
    split; [exact Hin|]. exists a'. split; [right; exact Ha' | exact E'].
Qed.

Lemma norm_nil_of_nil (t : text) : t = [] -> norm t = [].
Proof. intros ->. reflexivity. Qed.

(** ** One field *)

(** The value stored for a field is the header that the rule selects,
    replaced by the last header with the same normalized form. *)
Lemma best_match_spec (std_col : text) (aliases hs : list text) :
  Forall (fun a => norm a <> []) aliases ->
  best_match (normalized_columns hs) std_col aliases
  = option_map (last_same hs) (spec_match std_col aliases hs).
Proof.
  intro Hal. unfold best_match, spec_match.
  rewrite lookup_normalized_columns.
  destruct (first_header (text_eqb (norm std_col)) hs); simpl; [reflexivity|].
  rewrite alias_loop_spec.
  destruct (spec_alias_match aliases hs) as [h|] eqn:E; simpl.
  - apply spec_alias_match_some in E. destruct E as (_ & a & Ha & E).
    rewrite Forall_forall in Hal. specialize (Hal a Ha).
    destruct (last_same hs h) as [|c t] eqn:El; [|reflexivity].
    exfalso. apply Hal. rewrite E, <- (last_same_norm hs h), El. reflexivity.
  - rewrite fuzzy_loop_first_item, first_item_normalized_columns.
    destruct (first_header (fuzzy_hit (norm std_col) aliases) hs); reflexivity.
Qed.

Lemma spec_match_in (std_col : text) (aliases hs : list text) (h : text) :
  spec_match std_col aliases hs = Some h -> In h hs.
Proof.
  unfold spec_match.
  destruct (first_header (text_eqb (norm std_col)) hs) as [h0|] eqn:E1.
  - intro H. injection H as <-. now apply first_header_some in E1.
  - destruct (spec_alias_match aliases hs) as [h0|] eqn:E2.
    + intro H. injection H as <-. now apply spec_alias_match_some in E2.
    + intro H. now apply first_header_some in H.
Qed.

(** ** The mapping *)

Lemma mapping_get_in (m : list (text * option text)) (k : text)
    (v : option text) :
  NoDup (map fst m) -> In (k, v) m -> mapping_get m k = v.
Proof.
  induction m as [|[k0 v0] m IH]; simpl; [contradiction|].
  intros H Hin. inversion H as [|? ? Hnotin Hd]; subst.
  destruct Hin as [E|Hin].
  - injection E as -> ->. now rewrite text_eqb_refl.
  - destruct (text_eqb_spec k k0) as [->|_]; [|apply IH; assumption].
    exfalso. apply Hnotin. apply (in_map fst) in Hin. exact Hin.
Qed.

Lemma column_mapping_keys_nodup : NoDup (map fst column_mapping).
Proof.
  vm_compute.
  repeat (constructor; [simpl; intuition discriminate|]).
  constructor.
Qed.

Lemma column_mapping_keys_nodup_norm :
  NoDup (map _normalize_text standard_headers).
Proof.
  vm_compute.
  repeat (constructor; [simpl; intuition discriminate|]).
  constructor.
Defined.

Lemma auto_identify_keys (hs : list text) :
  map fst (_auto_identify_columns hs) = map fst column_mapping.
Proof.
  unfold _auto_identify_columns. rewrite map_map. reflexivity.
Qed.

Lemma auto_identify_get (hs : list text) (std_col : text)
    (aliases : list text) :
  In (std_col, aliases) column_mapping ->
  mapping_get (_auto_identify_columns hs) std_col
  = best_match (normalized_columns hs) std_col aliases.
Proof.
  intro Hin. apply mapping_get_in.
  - rewrite auto_identify_keys. apply column_mapping_keys_nodup.
  - unfold _auto_identify_columns.
    apply (in_map
             (fun entry =>
                (fst entry,
                 best_match (normalized_columns hs) (fst entry) (snd entry))))
      in Hin.
    exact Hin.
Qed.

Lemma column_mapping_aliases (std_col : text) (aliases : list text) :
  In (std_col, aliases) column_mapping ->
  Forall (fun a => norm a <> []) aliases.
Proof.
  intro Hin. unfold column_mapping in Hin. simpl in Hin.
  repeat destruct Hin as [Hin|Hin]; try contradiction;
    injection Hin as <- <-;
    repeat (constructor; [vm_compute; discriminate|]); constructor.
Qed.

Lemma kept_spec (c : char) :
  kept c = true <->
  (97 <= c <= 122 \/ 65 <= c <= 90 \/ 48 <= c <= 57
   \/ 0x4e00 <= c <= 0x9fa5)%N.
Proof.
  unfold kept, in_range.
  rewrite !orb_true_iff, !andb_true_iff, !N.leb_le. tauto.
Qed.

(** C8, as the code has it.  Every string is normalized by deleting the
    characters that are not [a-z], [A-Z], [0-9] or in U+4E00..U+9FA5 and
    lower-casing the rest.  For each of the four fields the column stored
    in the mapping is found by the rules in strict order (the normalized
    name equal to a normalized header; else the first alias, in listed
    order, equal to a normalized header; else the first header, in table
    order, whose normalized form contains the normalized name or a
    normalized alias; else none), except that the header reported is the
    last header of the table with the normalized form of the header so
    found.  When no two headers share a normalized form, it is that header
    itself. *)
Theorem C8_column_matching (std_col : text) (aliases headers : list text) :
  In (std_col, aliases) column_mapping ->
  (forall t, _normalize_text t = map lower (filter kept t)) /\
  (forall c, kept c = true <->
     (97 <= c <= 122 \/ 65 <= c <= 90 \/ 48 <= c <= 57
      \/ 0x4e00 <= c <= 0x9fa5)%N) /\
  mapping_get (_auto_identify_columns headers) std_col
  = option_map (last_same headers) (spec_match std_col aliases headers) /\
  (NoDup (map _normalize_text headers) ->
   mapping_get (_auto_identify_columns headers) std_col
   = spec_match std_col aliases headers).
Proof.
  intro Hin.
  assert (Hcode :
    mapping_get (_auto_identify_columns headers) std_col
    = option_map (last_same headers) (spec_match std_col aliases headers)).
  { rewrite (auto_identify_get headers _ _ Hin).
    apply best_match_spec. apply (column_mapping_aliases _ _ Hin). }
  split; [intros [|c t]; reflexivity|].
  split; [apply kept_spec|].
  split; [exact Hcode|].
  intro Hnd. rewrite Hcode.
  destruct (spec_match std_col aliases headers) as [h|] eqn:E; [|reflexivity].
  simpl. f_equal. apply last_same_id.
  intros h' Hin' En. apply spec_match_in in E.
  apply (NoDup_map_eq headers); assumption.
Qed.

(** C8 with the first header reported does not hold: with the headers
    "my ds" and "my_ds" the first
    header that contains the alias [ds] is "my ds", and the mapping stores
    "my_ds". *)
Lemma C8_first_header_not_used :
  spec_match (py "Saturated soil depth ds(m)")
    [py "Saturated soil depth ds(m)"; py "Saturated depth(m)"; py "ds";
     py "Saturated depth"; py "Soil depth ds"; py "Depth ds"]
    duplicate_headers
  = Some (py "my ds") /\
  mapping_get (_auto_identify_columns duplicate_headers)
    (py "Saturated soil depth ds(m)")
  = Some (py "my_ds") /\
  py "my_ds" <> py "my ds".
Proof.
  split; [vm_compute; reflexivity|].
  split; [vm_compute; reflexivity|].
  vm_compute. discriminate.
Qed.

Lemma C8_witness :
  mapping_get (_auto_identify_columns standard_headers) (py "Measured N-value")
  = Some (py "Measured N-value").
Proof.
  destruct (C8_column_matching (py "Measured N-value")
              [py "Measured N-value"; py "N-value";
               py "Measured penetration value"; py "Standard penetration N";
               py "N"; py "Blow count N"]
              standard_headers) as (_ & _ & _ & H).
  - right. right. left. reflexivity.
  - rewrite H.
    + vm_compute. reflexivity.
    + apply column_mapping_keys_nodup_norm.
Defined.

(** ** The scenarios of the documentation *)

(** Headers equal to the standard columns are mapped to themselves. *)
Example standard_headers_identified :
  _auto_identify_columns standard_headers
  = map (fun h => (h, Some h)) standard_headers.
Proof. vm_compute. reflexivity. Qed.

(** A header without spaces is found by the substring rule. *)
Example fuzzy_fallback :
  _normalize_text (py "Saturated soil depth ds(m)")
  = py "saturatedsoildepthdsm" /\
  mapping_get (_auto_identify_columns depth_only_headers)
    (py "Saturated soil depth ds(m)")
  = Some (py "SaturatedDepthds").
Proof. vm_compute. split; reflexivity. Qed.

(** ** The check of the mapping before the import *)

Lemma missing_columns_spec (m : list (text * option text)) (f : text) :
  NoDup (map fst m) ->
  In f (missing_columns m) <->
  In f (map fst m) /\ falsy (mapping_get m f) = true.
Proof.
  intro Hnd. unfold missing_columns. rewrite in_map_iff. split.
  - intros ([k v] & <- & Hin). apply filter_In in Hin. simpl in *.
    destruct Hin as [Hin Hv]. split.
    + apply (in_map fst) in Hin. exact Hin.
    + now rewrite (mapping_get_in m k v Hnd Hin).
  - intros [Hin Hv]. apply in_map_iff in Hin.
    destruct Hin as ([k v] & <- & Hin). simpl in *.
    exists (k, v). split; [reflexivity|]. apply filter_In. split; [exact Hin|].
    simpl. now rewrite (mapping_get_in m k v Hnd Hin) in Hv.
Qed.


Lemma startswith_append (a b y : text) :
  startswith b a = true -> startswith (b ++ y) a = true.
Proof.
  revert b. induction a as [|c a IH]; intros b H.
  - destruct (b ++ y); reflexivity.
  - destruct b as [|c' b]; [discriminate|]. simpl in *.
    apply andb_true_iff in H. destruct H as [H1 H2].
    now rewrite H1, (IH b H2).
Qed.


Lemma text_in_append_l (a b y : text) :
  text_in a b = true -> text_in a (b ++ y) = true.
Proof.
  induction b as [|c b IH]; intro H.
  - simpl in H. rewrite orb_false_r in H.
    destruct a; [|discriminate]. destruct y; reflexivity.
  - cbn [text_in] in H. apply orb_true_iff in H. destruct H as [H|H].
    + change ((c :: b) ++ y) with (c :: (b ++ y)).
      cbn [text_in]. change (c :: b ++ y) with ((c :: b) ++ y).
      now rewrite (startswith_append _ _ y H).
    + change ((c :: b) ++ y) with (c :: (b ++ y)).
      cbn [text_in]. rewrite (IH H). apply orb_true_r.
Qed.



Section PreviewCheck.

Variable frame : Type.
Variable columns_of : frame -> list text.
Variable groupby : frame -> text -> list (text * frame).
Variable read_excel : text -> attempt frame.
Variable _update_data_stats :
  frame -> list (text * option text) -> attempt unit.


End PreviewCheck.



End ReconcilerFacts.

(** * Part V: further properties of the calculator *)

Section CalcMore.

Import Calc.

(** ** The index as a function of the layers *)

(** The contribution of one layer, as [calculate_liquefaction_index]
    computes it. *)
Lemma layer_contribution_formula (i n0 : Z) (dw : Q) (l : layer) :
  In (i, n0) N0_map ->
  lr_contribution (layer_step n0 dw l)
  == Qmax 0 (1 - l_N l / Ncr n0 (l_ds l) dw) * l_di l * wi (l_ds l).
Proof.
  intro Hin. pose proof (Ncr_positive _ _ (l_ds l) dw Hin) as Hpos.
  simpl. destruct (FS_cases (l_N l) (Ncr n0 (l_ds l) dw)) as [Hne _].
  rewrite Hne by (intro E; rewrite E in Hpos; exact (Qlt_irrefl 0 Hpos)).
  destruct (Qlt_le_dec 1 (l_N l / Ncr n0 (l_ds l) dw)) as [Hgt|Hle].
  - rewrite (contribution_fin_gt _ _ _ Hgt).
    rewrite Q.max_l by lra. ring.
  - apply contribution_fin_le. exact Hle.
Qed.

Lemma py_sum_from (xs : list Q) (acc : Q) :
  fold_left Qplus xs acc == acc + fold_left Qplus xs 0.
Proof.
  revert acc. induction xs as [|x xs IH]; intro acc; simpl.
  - ring.
  - rewrite (IH (acc + x)), (IH (0 + x)). ring.
Qed.

Lemma py_sum_cons (x : Q) (xs : list Q) : py_sum (x :: xs) == x + py_sum xs.
Proof. unfold py_sum. simpl. rewrite py_sum_from. ring. Qed.

Lemma py_sum_nonneg (xs : list Q) :
  Forall (fun x => 0 <= x) xs -> 0 <= py_sum xs.
Proof. intro H. unfold py_sum. apply fold_plus_nonneg; [exact H | lra]. Qed.

Lemma py_sum_le (xs ys : list Q) :
  Forall2 Qle xs ys -> py_sum xs <= py_sum ys.
Proof.
  induction 1 as [|x y xs ys Hxy _ IH].
  - apply Qle_refl.
  - rewrite !py_sum_cons. lra.
Qed.


(** The result of a valid point, with the index as a sum. *)
Lemma calculate_valid_ile (d : data) :
  In (d_intensity d) [7; 8; 9]%Z ->
  exists r n0,
    In (d_intensity d, n0) N0_map /\
    calculate_liquefaction_index d = Ok r /\
    r_layers r = map (layer_step n0 (d_dw d)) (d_layers d) /\
    r_ile r = py_sum (map lr_contribution (r_layers r)) /\
    r_grade r = classify (r_ile r) (d_depth_criteria d).
Proof.
  intro Hi. destruct (calculate_valid d Hi) as (n0 & Hin & Hcalc).
  eexists. exists n0. split; [exact Hin|]. split; [exact Hcalc|].
  simpl. auto.
Qed.

Lemma N0_map_functional (i n0 n0' : Z) :
  In (i, n0) N0_map -> In (i, n0') N0_map -> n0 = n0'.
Proof.
  simpl. intros [H|[H|[H|[]]]] [H'|[H'|[H'|[]]]];
    inversion H; inversion H'; subst; try reflexivity; discriminate.
Qed.

(** ** Layers below 20 m *)



(** ** The grade as a function of the index *)

Ltac rank_cases :=
  repeat match goal with
         | |- context [Qle_bool ?a ?b] =>
             destruct (Qle_bool_cases a b) as [[? ->]|[? ->]]
         end;
  simpl; try lia; exfalso; lra.

Lemma classify_monotone (x y : Q) (depth : Z) :
  x <= y ->
  (grade_rank (classify x depth) <= grade_rank (classify y depth))%nat.
Proof.
  intro H. unfold classify. destruct (Z.eqb depth 15); rank_cases.
Qed.

Lemma classify_15_most_severe (x : Q) (depth : Z) :
  (grade_rank (classify x depth) <= grade_rank (classify x 15))%nat.
Proof.
  unfold classify. destruct (Z.eqb depth 15); simpl Z.eqb; cbv iota;
    rank_cases.
Qed.

(** ** Higher blow counts *)

Lemma layer_contribution_antitone (i n0 : Z) (dw : Q) (l l' : layer) :
  In (i, n0) N0_map ->
  l_ds l' = l_ds l -> l_di l' = l_di l -> l_N l <= l_N l' -> 0 <= l_di l ->
  lr_contribution (layer_step n0 dw l') <= lr_contribution (layer_step n0 dw l).
Proof.
  intros Hin Eds Edi HN Hdi.
  rewrite !(layer_contribution_formula _ _ _ _ Hin), Eds, Edi.
  pose proof (Ncr_positive _ _ (l_ds l) dw Hin) as Hpos.
  pose proof (wi_nonneg (l_ds l)) as Hw.
  assert (Hinv : 0 <= / Ncr n0 (l_ds l) dw).
  { apply Qinv_le_0_compat. lra. }
  assert (Hfs : l_N l / Ncr n0 (l_ds l) dw <= l_N l' / Ncr n0 (l_ds l) dw).
  { unfold Qdiv. apply Qmult_le_compat_r; assumption. }
  assert (Hmax : Qmax 0 (1 - l_N l' / Ncr n0 (l_ds l) dw)
                 <= Qmax 0 (1 - l_N l / Ncr n0 (l_ds l) dw)).
  { apply Q.max_le_compat_l. lra. }
  apply Qmult_le_compat_r; [|exact Hw].
  apply Qmult_le_compat_r; [exact Hmax | exact Hdi].
Qed.

(** X3.  Raising measured blow counts never raises the index: if two points
    differ only in that some layers of the second have a larger [N], and no
    thickness is negative, the second point has an index that is not
    larger and a grade that is not more severe. *)
Theorem X3_higher_blow_counts_never_worse (d d' : data) :
  In (d_intensity d) [7; 8; 9]%Z ->
  d_intensity d' = d_intensity d ->
  d_depth_criteria d' = d_depth_criteria d ->
  d_dw d' = d_dw d ->
  Forall2
    (fun l l' =>
       l_ds l' = l_ds l /\ l_di l' = l_di l /\ l_N l <= l_N l' /\ 0 <= l_di l)
    (d_layers d) (d_layers d') ->
  exists r r',
    calculate_liquefaction_index d = Ok r /\
    calculate_liquefaction_index d' = Ok r' /\
    r_ile r' <= r_ile r /\
    (grade_rank (r_grade r') <= grade_rank (r_grade r))%nat.
Proof.
  intros Hi Ei Ed Ew Hlayers.
  destruct (calculate_valid_ile d Hi) as (r & n0 & Hin & Hc & Hl & Hs & Hg).
  assert (Hi' : In (d_intensity d') [7; 8; 9]%Z) by (rewrite Ei; exact Hi).
  destruct (calculate_valid_ile d' Hi')
    as (r' & n0' & Hin' & Hc' & Hl' & Hs' & Hg').
  rewrite Ei in Hin'. pose proof (N0_map_functional _ _ _ Hin Hin') as <-.
  exists r, r'. split; [exact Hc|]. split; [exact Hc'|].
  assert (Hile : r_ile r' <= r_ile r).
  { rewrite Hs, Hs', Hl, Hl', Ew, !map_map. apply py_sum_le.
    clear - Hlayers Hin.
    induction Hlayers as [|l l' ls ls' (Eds & Edi & HN & Hdi) _ IH]; simpl.
    - constructor.
    - constructor; [|exact IH].
      apply (layer_contribution_antitone _ _ _ _ _ Hin); assumption. }
  split; [exact Hile|].
  rewrite Hg, Hg', Ed. apply classify_monotone. exact Hile.
Qed.

(** X4.  For the same layers, intensity and groundwater depth, the grade
    obtained with depth criterion 15 is at least as severe as the grade
    obtained with any other criterion, and the index is the same. *)
Theorem X4_criterion_15_most_severe (d : data) :
  In (d_intensity d) [7; 8; 9]%Z ->
  exists r r15,
    calculate_liquefaction_index d = Ok r /\
    calculate_liquefaction_index
      (mk_data (d_intensity d) 15 (d_dw d) (d_layers d)) = Ok r15 /\
    r_ile r15 = r_ile r /\
    (grade_rank (r_grade r) <= grade_rank (r_grade r15))%nat.
Proof.
  intro Hi. destruct (calculate_valid d Hi) as (n0 & Hin & Hcalc).
  destruct (calculate_valid (mk_data (d_intensity d) 15 (d_dw d) (d_layers d)) Hi)
    as (n0' & Hin' & Hcalc').
  simpl in Hin', Hcalc'.
  pose proof (N0_map_functional _ _ _ Hin Hin') as <-.
  eexists. eexists. split; [exact Hcalc|]. split; [exact Hcalc'|]. simpl.
  split; [reflexivity|]. apply classify_15_most_severe.
Qed.

(** X5.  Between two points judged with the same depth criterion, the one
    with the larger index never gets the less severe grade. *)
Theorem X5_grade_monotone_in_index (d d' : data) :
  In (d_intensity d) [7; 8; 9]%Z ->
  In (d_intensity d') [7; 8; 9]%Z ->
  d_depth_criteria d' = d_depth_criteria d ->
  exists r r',
    calculate_liquefaction_index d = Ok r /\
    calculate_liquefaction_index d' = Ok r' /\
    (r_ile r <= r_ile r' ->
     (grade_rank (r_grade r) <= grade_rank (r_grade r'))%nat).
Proof.
  intros Hi Hi' Ed.
  destruct (calculate_valid_ile d Hi) as (r & n0 & _ & Hc & _ & _ & Hg).
  destruct (calculate_valid_ile d' Hi') as (r' & n0' & _ & Hc' & _ & _ & Hg').
  exists r, r'. split; [exact Hc|]. split; [exact Hc'|].
  intro Hile. rewrite Hg, Hg', Ed. apply classify_monotone. exact Hile.
Qed.

(** ** When a point does not liquefy *)




(** ** The further properties at concrete points *)


Lemma X3_witness :
  exists r r',
    calculate_liquefaction_index default_point = Ok r /\
    calculate_liquefaction_index denser_default_point = Ok r' /\
    r_ile r' <= r_ile r.
Proof.
  destruct (X3_higher_blow_counts_never_worse default_point
              denser_default_point)
    as (r & r' & Hc & Hc' & Hile & _); try reflexivity; [simpl; auto | |].
  - simpl. repeat constructor; simpl; discriminate.
  - exists r, r'. auto.
Defined.

Lemma X4_witness :
  exists r r15,
    calculate_liquefaction_index (one_layer_point 20 0.55) = Ok r /\
    calculate_liquefaction_index (one_layer_point 15 0.55) = Ok r15 /\
    (grade_rank (r_grade r) <= grade_rank (r_grade r15))%nat.
Proof.
  destruct (X4_criterion_15_most_severe (one_layer_point 20 0.55))
    as (r & r15 & Hc & Hc15 & _ & Hg); [simpl; auto|].
  exists r, r15. split; [exact Hc|]. split; [exact Hc15 | exact Hg].
Defined.

Lemma X5_witness :
  exists r r',
    calculate_liquefaction_index (one_layer_point 15 0.5) = Ok r /\
    calculate_liquefaction_index default_point = Ok r' /\
    (grade_rank (r_grade r) <= grade_rank (r_grade r'))%nat.
Proof.
  destruct (X5_grade_monotone_in_index (one_layer_point 15 0.5) default_point)
    as (r & r' & Hc & Hc' & Hg); [simpl; auto | simpl; auto | reflexivity |].
  exists r, r'. split; [exact Hc|]. split; [exact Hc'|]. apply Hg.
  vm_compute in Hc, Hc'. injection Hc as <-. injection Hc' as <-.
  vm_compute. discriminate.
Defined.


End CalcMore.

(** * Part VI: further properties of the column reconciler *)

Section ReconcilerMore.

Import Reconciler.

Local Open Scope N_scope.

Local Abbreviation norm := _normalize_text.

(** ** The normal form *)

Lemma norm_eq (t : text) : norm t = map lower (filter kept t).
Proof. destruct t; reflexivity. Qed.

Lemma in_range_spec (lo hi c : N) :
  in_range lo hi c = true <-> lo <= c <= hi.
Proof. unfold in_range. rewrite andb_true_iff, !N.leb_le. tauto. Qed.

Lemma in_range_false (lo hi c : N) :
  in_range lo hi c = false <-> c < lo \/ hi < c.
Proof.
  unfold in_range. rewrite andb_false_iff, !N.leb_gt. tauto.
Qed.

(** A kept character becomes a lower-case letter, a digit or an ideograph of
    the range. *)
Lemma lower_kept (c : char) :
  kept c = true ->
  in_range 97 122 (lower c) || in_range 48 57 (lower c)
  || in_range 0x4e00 0x9fa5 (lower c) = true.
Proof.
  unfold kept, lower. rewrite !orb_true_iff.
  destruct (in_range 65 90 c) eqn:E.
  - intros _. left. left. apply in_range_spec in E. apply in_range_spec. lia.
  - intros [[[H|H]|H]|H]; auto; discriminate.
Qed.

Lemma lower_fixed (c : char) :
  in_range 97 122 c || in_range 48 57 c || in_range 0x4e00 0x9fa5 c = true ->
  kept c = true /\ lower c = c.
Proof.
  intro H. unfold kept, lower. rewrite !orb_true_iff in *. split.
  - tauto.
  - destruct (in_range 65 90 c) eqn:E; [|reflexivity].
    apply in_range_spec in E. rewrite !in_range_spec in H. lia.
Qed.

(** X8.  The result of [_normalize_text] consists of lower-case ASCII
    letters, ASCII digits and characters of U+4E00..U+9FA5 only. *)
Theorem X8_normal_form_alphabet (t : text) (c : char) :
  In c (_normalize_text t) ->
  97 <= c <= 122 \/ 48 <= c <= 57 \/ 0x4e00 <= c <= 0x9fa5.
Proof.
  rewrite norm_eq. intro H. apply in_map_iff in H.
  destruct H as (c0 & <- & Hc0). apply filter_In in Hc0.
  destruct Hc0 as [_ Hk]. apply lower_kept in Hk.
  rewrite !orb_true_iff, !in_range_spec in Hk. tauto.
Qed.

Lemma norm_fixed (t : text) :
  Forall (fun c => in_range 97 122 c || in_range 48 57 c
                   || in_range 0x4e00 0x9fa5 c = true) t ->
  norm t = t.
Proof.
  rewrite norm_eq. induction 1 as [|c t Hc _ IH]; simpl; [reflexivity|].
  destruct (lower_fixed c Hc) as [Hk Hl]. rewrite Hk. simpl.
  now rewrite Hl, IH.
Qed.

(** X9.  [_normalize_text] is idempotent: a normalized string is its own
    normal form. *)
Theorem X9_normalize_idempotent (t : text) :
  _normalize_text (_normalize_text t) = _normalize_text t.
Proof.
  apply norm_fixed. apply Forall_forall. intros c Hc.
  rewrite norm_eq in Hc. apply in_map_iff in Hc.
  destruct Hc as (c0 & <- & Hc0). apply filter_In in Hc0.
  apply lower_kept. tauto.
Qed.

(** X10.  The normal form of a concatenation is the concatenation of the
    normal forms; hence a character outside the kept class (a space, a
    bracket, a hyphen) can be inserted anywhere without changing the normal
    form. *)
Theorem X10_normalize_concatenation (a b : text) :
  _normalize_text (a ++ b) = _normalize_text a ++ _normalize_text b /\
  forall c, kept c = false ->
    _normalize_text (a ++ c :: b) = _normalize_text (a ++ b).
Proof.
  assert (Happ : forall x y, norm (x ++ y) = norm x ++ norm y).
  { intros x y. rewrite !norm_eq, filter_app, map_app. reflexivity. }
  split; [apply Happ|].
  intros c Hc. rewrite !Happ. f_equal.
  rewrite !norm_eq. simpl. now rewrite Hc.
Qed.

Lemma kept_lower (c : char) : kept (lower c) = kept c.
Proof.
  unfold lower. destruct (in_range 65 90 c) eqn:E; [|reflexivity].
  pose proof (proj1 (in_range_spec _ _ _) E) as Hc. unfold kept.
  assert (H1 : in_range 97 122 (c + 32) = true) by (apply in_range_spec; lia).
  rewrite H1, E. simpl. now rewrite orb_true_r.
Qed.

Lemma lower_lower (c : char) : lower (lower c) = lower c.
Proof.
  unfold lower. destruct (in_range 65 90 c) eqn:E.
  - pose proof (proj1 (in_range_spec _ _ _) E) as Hc.
    assert (H : in_range 65 90 (c + 32) = false)
      by (apply in_range_false; lia).
    now rewrite H.
  - now rewrite E.
Qed.

(** X11.  The normal form ignores the case of ASCII letters: two strings
    that become equal when [A-Z] is replaced by [a-z] have the same normal
    form. *)
Theorem X11_normalize_ignores_case (a b : text) :
  map lower a = map lower b -> _normalize_text a = _normalize_text b.
Proof.
  assert (H : forall t, norm (map lower t) = norm t).
  { intro t. rewrite !norm_eq. induction t as [|c t IH]; simpl; [reflexivity|].
    rewrite kept_lower. destruct (kept c); simpl; [|exact IH].
    now rewrite lower_lower, IH. }
  intro E. rewrite <- (H a), <- (H b), E. reflexivity.
Qed.

(** ** What the mapping reports *)

Lemma startswith_refl (a : text) : startswith a a = true.
Proof.
  induction a as [|x a IH]; simpl; [reflexivity|].
  now rewrite N.eqb_refl, IH.
Qed.

Lemma text_in_refl (a : text) : text_in a a = true.
Proof. destruct a; simpl; [reflexivity|]. now rewrite N.eqb_refl, startswith_refl. Qed.

Lemma text_in_nil (a : text) : text_in a [] = true -> a = [].
Proof. destruct a; simpl; [reflexivity | discriminate]. Qed.

Lemma last_same_in (hs : list text) (h : text) :
  In h hs -> In (last_same hs h) hs.
Proof.
  induction hs as [|x hs IH] using rev_ind; [contradiction|].
  intro Hin. rewrite last_same_snoc.
  destruct (text_eqb (norm h) (norm x)) eqn:E.
  - apply in_or_app. right. left. reflexivity.
  - apply in_or_app. apply in_app_or in Hin. destruct Hin as [Hin|[->|[]]].
    + left. apply IH. exact Hin.
    + rewrite text_eqb_refl in E. discriminate.
Qed.

Lemma spec_match_hit (std_col : text) (aliases hs : list text) (h : text) :
  spec_match std_col aliases hs = Some h ->
  fuzzy_hit (norm std_col) aliases (norm h) = true.
Proof.
  unfold spec_match, fuzzy_hit.
  destruct (first_header (text_eqb (norm std_col)) hs) as [h0|] eqn:E1.
  - intro H. injection H as <-. apply first_header_some in E1.
    destruct E1 as [_ E1].
    destruct (text_eqb_spec (norm std_col) (norm h0)) as [->|]; [|discriminate].
    now rewrite text_in_refl.
  - destruct (spec_alias_match aliases hs) as [h0|] eqn:E2.
    + intro H. injection H as <-. apply spec_alias_match_some in E2.
      destruct E2 as (_ & a & Ha & E). apply orb_true_iff. right.
      apply existsb_exists. exists a. split; [exact Ha|].
      rewrite E. apply text_in_refl.
    + intro H. apply first_header_some in H. apply H.
Qed.

Lemma first_header_none (P : text -> bool) (hs : list text) :
  first_header P hs = None <-> forall h, In h hs -> P (norm h) = false.
Proof.
  unfold first_header. split.
  - intros H h Hin. exact (find_none _ _ H h Hin).
  - intro H. induction hs as [|x hs IH]; simpl; [reflexivity|].
    rewrite (H x (or_introl eq_refl)). apply IH.
    intros h Hin. apply H. right. exact Hin.
Qed.

Lemma spec_alias_match_none (aliases hs : list text) :
  (forall h a, In h hs -> In a aliases -> text_eqb (norm a) (norm h) = false) ->
  spec_alias_match aliases hs = None.
Proof.
  induction aliases as [|a rest IH]; simpl; intro H; [reflexivity|].
  assert (E : first_header (text_eqb (norm a)) hs = None).
  { apply first_header_none. intros h Hin. apply H; [exact Hin | left; reflexivity]. }
  rewrite E. apply IH. intros h a' Hin Ha'. apply H; [exact Hin | right; exact Ha'].
Qed.

Lemma spec_match_none (std_col : text) (aliases hs : list text) :
  spec_match std_col aliases hs = None <->
  forall h, In h hs -> fuzzy_hit (norm std_col) aliases (norm h) = false.
Proof.
  split.
  - unfold spec_match.
    destruct (first_header (text_eqb (norm std_col)) hs); [discriminate|].
    destruct (spec_alias_match aliases hs); [discriminate|].
    apply first_header_none.
  - intro H. unfold spec_match.
    assert (E1 : first_header (text_eqb (norm std_col)) hs = None).
    { apply first_header_none. intros h Hin. specialize (H h Hin).
      unfold fuzzy_hit in H. apply orb_false_iff in H. destruct H as [H _].
      destruct (text_eqb_spec (norm std_col) (norm h)) as [E|]; [|reflexivity].
      rewrite E, text_in_refl in H. discriminate. }
    rewrite E1.
    rewrite spec_alias_match_none.
    + apply first_header_none. exact H.
    + intros h a Hin Ha. specialize (H h Hin).
      unfold fuzzy_hit in H. apply orb_false_iff in H. destruct H as [_ H].
      destruct (text_eqb_spec (norm a) (norm h)) as [E|]; [|reflexivity].
      assert (Hex : existsb (fun a0 => text_in (norm a0) (norm h)) aliases = true).
      { apply existsb_exists. exists a. split; [exact Ha|].
        rewrite E. apply text_in_refl. }
      rewrite Hex in H. discriminate.
Qed.

Lemma column_mapping_names (std_col : text) (aliases : list text) :
  In (std_col, aliases) column_mapping -> norm std_col <> [].
Proof.
  intro Hin. unfold column_mapping in Hin. simpl in Hin.
  repeat destruct Hin as [Hin|Hin]; try contradiction;
    injection Hin as <- <-; vm_compute; discriminate.
Qed.

Lemma fuzzy_hit_nonempty (std_col : text) (aliases : list text) (k : text) :
  In (std_col, aliases) column_mapping ->
  fuzzy_hit (norm std_col) aliases k = true -> k <> [].
Proof.
  intros Hin Hhit ->. unfold fuzzy_hit in Hhit.
  apply orb_true_iff in Hhit. destruct Hhit as [H|H].
  - apply text_in_nil in H. exact (column_mapping_names _ _ Hin H).
  - apply existsb_exists in H. destruct H as (a & Ha & H).
    apply text_in_nil in H.
    pose proof (column_mapping_aliases _ _ Hin) as Hal.
    rewrite Forall_forall in Hal. exact (Hal a Ha H).
Qed.

(** The value stored for a standard column, in terms of the rule. *)
Lemma auto_identify_spec (hs : list text) (std_col : text)
    (aliases : list text) :
  In (std_col, aliases) column_mapping ->
  mapping_get (_auto_identify_columns hs) std_col
  = option_map (last_same hs) (spec_match std_col aliases hs).
Proof.
  intro Hin. rewrite (auto_identify_get hs _ _ Hin).
  apply best_match_spec. apply (column_mapping_aliases _ _ Hin).
Qed.

(** X12.  A column stored in the mapping is always one of the headers of
    the table, it is not the empty string, and its normal form contains the
    normal form of the standard name or of one of its aliases. *)
Theorem X12_reported_column_is_a_header (std_col : text)
    (aliases headers : list text) (h : text) :
  In (std_col, aliases) column_mapping ->
  mapping_get (_auto_identify_columns headers) std_col = Some h ->
  In h headers /\ h <> [] /\
  (text_in (_normalize_text std_col) (_normalize_text h) = true \/
   exists a, In a aliases /\
     text_in (_normalize_text a) (_normalize_text h) = true).
Proof.
  intros Hin Hget. rewrite (auto_identify_spec _ _ _ Hin) in Hget.
  destruct (spec_match std_col aliases headers) as [h0|] eqn:E; [|discriminate].
  injection Hget as <-.
  pose proof (spec_match_in _ _ _ _ E) as Hh0.
  pose proof (spec_match_hit _ _ _ _ E) as Hhit.
  rewrite <- (last_same_norm headers h0) in Hhit.
  split; [apply last_same_in; exact Hh0|]. split.
  - intro Hnil. apply (fuzzy_hit_nonempty _ _ _ Hin Hhit).
    rewrite Hnil. reflexivity.
  - unfold fuzzy_hit in Hhit. apply orb_true_iff in Hhit.
    destruct Hhit as [H|H]; [left; exact H|]. right.
    apply existsb_exists in H. exact H.
Qed.

(** X13.  A standard column is missing exactly when no header of the table
    contains, after normalization, the normalized standard name or a
    normalized alias of it. *)
Theorem X13_missing_iff_no_header_contains (std_col : text)
    (aliases headers : list text) :
  In (std_col, aliases) column_mapping ->
  (In std_col (missing_columns (_auto_identify_columns headers)) <->
   forall h, In h headers ->
     text_in (_normalize_text std_col) (_normalize_text h) = false /\
     forall a, In a aliases ->
       text_in (_normalize_text a) (_normalize_text h) = false).
Proof.
  intro Hin.
  assert (Hnd : NoDup (map fst (_auto_identify_columns headers))).
  { rewrite auto_identify_keys. apply column_mapping_keys_nodup. }
  rewrite (missing_columns_spec _ _ Hnd), auto_identify_keys.
  rewrite (auto_identify_spec _ _ _ Hin).
  assert (Hkey : In std_col (map fst column_mapping)).
  { apply (in_map fst) in Hin. exact Hin. }
  assert (Hhit : forall h,
    fuzzy_hit (norm std_col) aliases (norm h) = false <->
    text_in (norm std_col) (norm h) = false /\
    forall a, In a aliases -> text_in (norm a) (norm h) = false).
  { intro h. unfold fuzzy_hit. rewrite orb_false_iff. split.
    - intros [H1 H2]. split; [exact H1|]. intros a Ha.
      destruct (text_in (norm a) (norm h)) eqn:E; [|reflexivity].
      assert (Hex : existsb (fun a0 => text_in (norm a0) (norm h)) aliases = true).
      { apply existsb_exists. exists a. auto. }
      rewrite Hex in H2. discriminate.
    - intros [H1 H2]. split; [exact H1|].
      destruct (existsb (fun a0 => text_in (norm a0) (norm h)) aliases) eqn:E;
        [|reflexivity].
      apply existsb_exists in E. destruct E as (a & Ha & E).
      rewrite (H2 a Ha) in E. discriminate. }
  split.
  - intros [_ Hf] h Hh. apply Hhit. revert h Hh. apply spec_match_none.
    destruct (spec_match std_col aliases headers) as [h0|] eqn:E; [|reflexivity].
    exfalso. simpl in Hf.
    pose proof (spec_match_hit _ _ _ _ E) as Hh0.
    rewrite <- (last_same_norm headers h0) in Hh0.
    apply (fuzzy_hit_nonempty _ _ _ Hin) in Hh0.
    destruct (last_same headers h0); [|discriminate].
    apply Hh0. reflexivity.
  - intro H. split; [exact Hkey|].
    assert (E : spec_match std_col aliases headers = None).
    { apply spec_match_none. intros h Hh. apply Hhit. apply H. exact Hh. }
    rewrite E. reflexivity.
Qed.

Lemma falsy_auto_identify (hs : list text) (std_col : text)
    (aliases : list text) :
  In (std_col, aliases) column_mapping ->
  falsy (mapping_get (_auto_identify_columns hs) std_col)
  = match spec_match std_col aliases hs with
    | Some _ => false
    | None => true
    end.
Proof.
  intro Hin. rewrite (auto_identify_spec _ _ _ Hin).
  destruct (spec_match std_col aliases hs) as [h0|] eqn:E; [|reflexivity].
  simpl. pose proof (spec_match_hit _ _ _ _ E) as Hh0.
  rewrite <- (last_same_norm hs h0) in Hh0.
  apply (fuzzy_hit_nonempty _ _ _ Hin) in Hh0.
  destruct (last_same hs h0); [|reflexivity].
  exfalso. apply Hh0. reflexivity.
Qed.

(** X14.  A header whose normal form equals that of the standard name
    decides the column, whatever aliases and partial matches the other
    headers offer: the column stored has that normal form, and it is that
    very header when no two headers share a normal form. *)
Theorem X14_exact_name_wins (std_col : text) (aliases headers : list text)
    (h : text) :
  In (std_col, aliases) column_mapping ->
  In h headers ->
  _normalize_text h = _normalize_text std_col ->
  exists h',
    mapping_get (_auto_identify_columns headers) std_col = Some h' /\
    In h' headers /\
    _normalize_text h' = _normalize_text std_col /\
    (NoDup (map _normalize_text headers) -> h' = h).
Proof.
  intros Hin Hh En. rewrite (auto_identify_spec _ _ _ Hin). unfold spec_match.
  destruct (first_header (text_eqb (norm std_col)) headers) as [h0|] eqn:E.
  - apply first_header_some in E. destruct E as [Hh0 E].
    destruct (text_eqb_spec (norm std_col) (norm h0)) as [E0|]; [|discriminate].
    exists (last_same headers h0). simpl. split; [reflexivity|].
    split; [apply last_same_in; exact Hh0|].
    split; [rewrite last_same_norm; congruence|].
    intro Hnd.
    rewrite last_same_id.
    + apply (NoDup_map_eq headers); try assumption. congruence.
    + intros h' Hh' En'. apply (NoDup_map_eq headers); assumption.
  - exfalso. rewrite first_header_none in E. specialize (E h Hh).
    rewrite En, text_eqb_refl in E. discriminate.
Qed.

(** ** Headers that differ in case and punctuation only *)

Lemma first_header_norm (P : text -> bool) (hs : list text) :
  option_map norm (first_header P hs) = find P (map norm hs).
Proof.
  unfold first_header. induction hs as [|h hs IH]; simpl; [reflexivity|].
  destruct (P (norm h)); [reflexivity | exact IH].
Qed.

Lemma spec_alias_match_norm (aliases hs hs' : list text) :
  map norm hs = map norm hs' ->
  option_map norm (spec_alias_match aliases hs)
  = option_map norm (spec_alias_match aliases hs').
Proof.
  intro E. induction aliases as [|a rest IH]; simpl; [reflexivity|].
  pose proof (first_header_norm (text_eqb (norm a)) hs) as H.
  pose proof (first_header_norm (text_eqb (norm a)) hs') as H'.
  rewrite E in H. rewrite <- H' in H. clear H'.
  destruct (first_header (text_eqb (norm a)) hs),
           (first_header (text_eqb (norm a)) hs'); simpl in H;
    try discriminate; [exact H | exact IH].
Qed.

Lemma spec_match_norm (std_col : text) (aliases hs hs' : list text) :
  map norm hs = map norm hs' ->
  option_map norm (spec_match std_col aliases hs)
  = option_map norm (spec_match std_col aliases hs').
Proof.
  intro E. unfold spec_match.
  pose proof (first_header_norm (text_eqb (norm std_col)) hs) as H.
  pose proof (first_header_norm (text_eqb (norm std_col)) hs') as H'.
  rewrite E in H. rewrite <- H' in H. clear H'.
  destruct (first_header (text_eqb (norm std_col)) hs),
           (first_header (text_eqb (norm std_col)) hs'); simpl in H;
    try discriminate; [exact H|].
  pose proof (spec_alias_match_norm aliases hs hs' E) as Ha.
  destruct (spec_alias_match aliases hs), (spec_alias_match aliases hs');
    simpl in Ha; try discriminate; [exact Ha|].
  rewrite !first_header_norm, E. reflexivity.
Qed.

Lemma missing_columns_ext (f g : text -> list text -> option text)
    (cm : list (text * list text)) :
  (forall std_col aliases, In (std_col, aliases) cm ->
     falsy (f std_col aliases) = falsy (g std_col aliases)) ->
  missing_columns (map (fun e => (fst e, f (fst e) (snd e))) cm)
  = missing_columns (map (fun e => (fst e, g (fst e) (snd e))) cm).
Proof.
  unfold missing_columns. induction cm as [|[k al] cm IH]; simpl; intro H;
    [reflexivity|].
  rewrite (H k al (or_introl eq_refl)).
  assert (IH' := IH (fun s a Hin => H s a (or_intror Hin))).
  destruct (falsy (g k al)); simpl; now rewrite IH'.
Qed.

(** X15.  Identification depends on the normal forms of the headers only:
    two tables whose headers agree after normalization, position by
    position, have the same missing columns, and the columns stored for a
    standard column have the same normal form. *)
Theorem X15_identification_up_to_normal_form (headers headers' : list text) :
  map _normalize_text headers = map _normalize_text headers' ->
  missing_columns (_auto_identify_columns headers)
  = missing_columns (_auto_identify_columns headers') /\
  forall std_col aliases, In (std_col, aliases) column_mapping ->
    option_map _normalize_text
      (mapping_get (_auto_identify_columns headers) std_col)
    = option_map _normalize_text
        (mapping_get (_auto_identify_columns headers') std_col).
Proof.
  intro E.
  assert (Hn : forall std_col aliases, In (std_col, aliases) column_mapping ->
    option_map norm (mapping_get (_auto_identify_columns headers) std_col)
    = option_map norm (mapping_get (_auto_identify_columns headers') std_col)).
  { intros std_col aliases Hin. rewrite !(auto_identify_spec _ _ _ Hin).
    pose proof (spec_match_norm std_col aliases headers headers' E) as H.
    destruct (spec_match std_col aliases headers),
             (spec_match std_col aliases headers'); simpl in *;
      try discriminate; [|reflexivity].
    rewrite !last_same_norm. exact H. }
  split; [|exact Hn].
  unfold _auto_identify_columns. apply missing_columns_ext.
  intros std_col aliases Hin.
  rewrite <- !(auto_identify_get _ _ _ Hin), !(falsy_auto_identify _ _ _ Hin).
  pose proof (spec_match_norm std_col aliases headers headers' E) as H.
  destruct (spec_match std_col aliases headers),
           (spec_match std_col aliases headers'); simpl in H;
    try discriminate; reflexivity.
Qed.

(** ** The alias [N] *)

Lemma startswith_nil (b : text) : startswith b [] = true.
Proof. destruct b; reflexivity. Qed.

Lemma text_in_single (c : char) (t : text) : In c t -> text_in [c] t = true.
Proof.
  induction t as [|x t IH]; [contradiction|].
  intros [->|Hin].
  - cbn [text_in startswith]. now rewrite N.eqb_refl, startswith_nil.
  - cbn [text_in]. rewrite (IH Hin). apply orb_true_r.
Qed.

Lemma norm_has_n (t : text) : In 110 t \/ In 78 t -> In 110 (norm t).
Proof.
  rewrite norm_eq. intros [H|H].
  - change 110 with (lower 110). apply in_map. apply filter_In. auto.
  - change 110 with (lower 78). apply in_map. apply filter_In. auto.
Qed.

(** X16.  Because [N] is an alias of "Measured N-value", that column is
    never missing when some header contains the letter [n] or [N]. *)
Theorem X16_letter_n_identifies_N_value (headers : list text) (h : text) :
  In h headers ->
  In 110 h \/ In 78 h ->
  ~ In (py "Measured N-value")
      (missing_columns (_auto_identify_columns headers)) /\
  exists h',
    mapping_get (_auto_identify_columns headers) (py "Measured N-value")
    = Some h'.
Proof.
  intros Hh Hn.
  assert (Hin : In (py "Measured N-value",
                    [py "Measured N-value"; py "N-value";
                     py "Measured penetration value";
                     py "Standard penetration N"; py "N"; py "Blow count N"])
                   column_mapping).
  { right. right. left. reflexivity. }
  assert (Hsome : spec_match (py "Measured N-value")
                    [py "Measured N-value"; py "N-value";
                     py "Measured penetration value";
                     py "Standard penetration N"; py "N"; py "Blow count N"]
                    headers <> None).
  { intro E. rewrite spec_match_none in E. specialize (E h Hh).
    unfold fuzzy_hit in E. apply orb_false_iff in E. destruct E as [_ E].
    assert (Hex : existsb (fun a => text_in (norm a) (norm h))
                    [py "Measured N-value"; py "N-value";
                     py "Measured penetration value";
                     py "Standard penetration N"; py "N"; py "Blow count N"]
                  = true).
    { apply existsb_exists. exists (py "N").
      split; [simpl; auto 10|].
      change (norm (py "N")) with [110].
      apply text_in_single. apply norm_has_n. exact Hn. }
    rewrite Hex in E. discriminate. }
  assert (Hnd : NoDup (map fst (_auto_identify_columns headers))).
  { rewrite auto_identify_keys. apply column_mapping_keys_nodup. }
  split.
  - rewrite (missing_columns_spec _ _ Hnd). intros [_ Hf].
    rewrite (falsy_auto_identify _ _ _ Hin) in Hf.
    destruct (spec_match _ _ headers); [discriminate | contradiction].
  - rewrite (auto_identify_spec _ _ _ Hin).
    destruct (spec_match _ _ headers) as [h0|]; [|contradiction].
    exists (last_same headers h0). reflexivity.
Qed.

(** ** The further properties on concrete tables *)

Lemma X8_witness :
  In 100 (_normalize_text (py "Depth ds(m)")) /\
  (97 <= 100 <= 122 \/ 48 <= 100 <= 57 \/ 0x4e00 <= 100 <= 0x9fa5).
Proof.
  assert (H : In 100 (_normalize_text (py "Depth ds(m)")))
    by (vm_compute; auto).
  split; [exact H|].
  exact (X8_normal_form_alphabet (py "Depth ds(m)") 100 H).
Defined.

Lemma X10_witness :
  _normalize_text (py "Depth" ++ 32 :: py "ds")
  = _normalize_text (py "Depth" ++ py "ds").
Proof.
  apply (proj2 (X10_normalize_concatenation (py "Depth") (py "ds"))).
  reflexivity.
Defined.

Lemma X11_witness :
  _normalize_text (py "DEPTH DS") = _normalize_text (py "depth ds").
Proof. apply X11_normalize_ignores_case. vm_compute. reflexivity. Defined.

Lemma X12_witness :
  In (py "SaturatedDepthds") depth_only_headers /\
  py "SaturatedDepthds" <> [].
Proof.
  destruct (X12_reported_column_is_a_header
              (py "Saturated soil depth ds(m)")
              [py "Saturated soil depth ds(m)"; py "Saturated depth(m)";
               py "ds"; py "Saturated depth"; py "Soil depth ds";
               py "Depth ds"]
              depth_only_headers (py "SaturatedDepthds"))
    as (H1 & H2 & _).
  - right. left. reflexivity.
  - vm_compute. reflexivity.
  - split; assumption.
Defined.

Lemma X13_witness :
  text_in (_normalize_text (py "Point ID")) (_normalize_text (py "Hole"))
  = false.
Proof.
  assert (Hmissing : In (py "Point ID")
            (missing_columns (_auto_identify_columns depth_only_headers)))
    by (vm_compute; auto).
  assert (Hh : In (py "Hole") depth_only_headers) by (right; left; reflexivity).
  exact (proj1
           (proj1 (X13_missing_iff_no_header_contains (py "Point ID")
                     [py "Point ID"; py "Point No"; py "Measurement Point ID";
                      py "ID"; py "Point Number"]
                     depth_only_headers (or_introl eq_refl))
              Hmissing (py "Hole") Hh)).
Defined.

Lemma X14_witness :
  mapping_get
    (_auto_identify_columns [py "N (blows)"; py "measured n value"])
    (py "Measured N-value")
  = Some (py "measured n value").
Proof.
  destruct (X14_exact_name_wins (py "Measured N-value")
              [py "Measured N-value"; py "N-value";
               py "Measured penetration value"; py "Standard penetration N";
               py "N"; py "Blow count N"]
              [py "N (blows)"; py "measured n value"]
              (py "measured n value"))
    as (h' & Hget & _ & _ & Heq).
  - right. right. left. reflexivity.
  - right. left. reflexivity.
  - vm_compute. reflexivity.
  - rewrite Hget, Heq; [reflexivity|].
    vm_compute. repeat (constructor; [simpl; intuition discriminate|]).
    constructor.
Defined.

Lemma X15_witness :
  missing_columns
    (_auto_identify_columns
       [py "POINT-ID"; py "saturated soil depth DS (m)";
        py "Measured N value"; py "layer thickness di m"])
  = missing_columns (_auto_identify_columns standard_headers).
Proof.
  destruct (X15_identification_up_to_normal_form
              [py "POINT-ID"; py "saturated soil depth DS (m)";
               py "Measured N value"; py "layer thickness di m"]
              standard_headers) as [H _].
  - vm_compute. reflexivity.
  - exact H.
Defined.

Lemma X16_witness :
  exists h',
    mapping_get (_auto_identify_columns [py "Point ID"; py "Depth ds"])
      (py "Measured N-value")
    = Some h'.
Proof.
  apply (X16_letter_n_identifies_N_value [py "Point ID"; py "Depth ds"]
           (py "Point ID")).
  - left. reflexivity.
  - left. vm_compute. auto.
Defined.

End ReconcilerMore.

(** * Part VII: properties of the calculations of the import page *)

Section ImportPageFacts.

Import Reconciler ImportPage.

Variable frame : Type.
Variable row : Type.
Variable iterrows : frame -> list row.
Variable cell : row -> text -> Q.
Variable repr : text -> text.
Variable columns_of : frame -> list text.
Variable groupby : frame -> text -> list (text * frame).
Variable read_excel : text -> attempt frame.
Variable _update_data_stats :
  frame -> list (text * option text) -> attempt unit.

(** The text of the building class box, whatever it is. *)
Variable building_class : string.

Local Abbreviation calculate_all :=
  (calculate_all_imported_points iterrows cell repr building_class).
Local Abbreviation calculate_selected :=
  (calculate_import iterrows cell repr building_class).
Local Abbreviation preview_table :=
  (preview columns_of groupby read_excel _update_data_stats).

(** ** A rejected table *)

Local Abbreviation rejected_table :=
  (rejected columns_of read_excel _update_data_stats).

Lemma rejected_no_points (w : window frame) (file_path : text) :
  rejected_table file_path ->
  imported_points (page (preview_table w file_path)) = [].
Proof.
  unfold rejected, preview, preview_file. simpl.
  destruct (read_excel file_path) as [df|e]; simpl; [|reflexivity].
  intros [[e He]|Hm].
  - rewrite He. reflexivity.
  - destruct (_update_data_stats df (_auto_identify_columns (columns_of df)))
      as [[]|e]; simpl; [|reflexivity].
    destruct (missing_columns (_auto_identify_columns (columns_of df)));
      [contradiction | reflexivity].
Qed.

Lemma preview_keeps_results (w : window frame) (file_path : text) :
  results (preview_table w file_path) = results w /\
  infos (preview_table w file_path) = infos w.
Proof. split; reflexivity. Qed.

Lemma refused (f : form) (selection : option text) (w : window frame) :
  incomplete (current_column_mapping (page w)) = true \/
  imported_points (page w) = [] ->
  (results (calculate_all f w) = results w /\
   infos (calculate_all f w) = infos w /\
   exists message,
     dialogs (page (calculate_all f w))
     = dialogs (page w) ++ [showwarning (py "Warning") message]) /\
  (results (calculate_selected f selection w) = results w /\
   infos (calculate_selected f selection w) = infos w /\
   exists message,
     dialogs (page (calculate_selected f selection w))
     = dialogs (page w) ++ [showwarning (py "Warning") message]).
Proof.
  unfold calculate_all_imported_points, calculate_import.
  destruct (incomplete (current_column_mapping (page w))) eqn:E.
  - intros _. simpl. split; repeat split; eexists; reflexivity.
  - intros [H|H]; [discriminate|]. rewrite H. simpl.
    split; repeat split; eexists; reflexivity.
Qed.

(** X17.  Nothing is calculated from a rejected table, whatever was
    imported before: after a preview of a file that cannot be read, whose
    statistics raise or that lacks a standard column, and likewise after
    "clear import", both "Calculate All Points" and "Calculate Selected
    Point" leave the stored results as they are and only show a warning. *)
Theorem X17_rejected_table_is_not_calculated (w w' : window frame) (f : form)
    (selection : option text) (file_path : text) :
  (rejected_table file_path /\ w' = preview_table w file_path) \/
  w' = clear_import w ->
  (results (calculate_all f w') = results w /\
   infos (calculate_all f w') = infos w /\
   exists message,
     dialogs (page (calculate_all f w'))
     = dialogs (page w') ++ [showwarning (py "Warning") message]) /\
  (results (calculate_selected f selection w') = results w /\
   infos (calculate_selected f selection w') = infos w /\
   exists message,
     dialogs (page (calculate_selected f selection w'))
     = dialogs (page w') ++ [showwarning (py "Warning") message]).
Proof.
  intros Hw'.
  assert (Hpts : imported_points (page w') = []).
  { destruct Hw' as [[Hrej ->]| ->]; [apply rejected_no_points; exact Hrej|].
    reflexivity. }
  assert (Hres : results w' = results w /\ infos w' = infos w).
  { destruct Hw' as [[_ ->]| ->]; split; reflexivity. }
  destruct Hres as [Hr Hi]. rewrite <- Hr, <- Hi.
  apply refused. right. exact Hpts.
Qed.

(** ** A complete mapping *)

Lemma results_get_set (d : results_dict) (k : text) (v : Calc.result)
    (q : text) :
  results_get (results_set d k v) q
  = if text_eqb q k then Some v else results_get d q.
Proof.
  induction d as [|[k0 v0] d IH]; simpl; [reflexivity|].
  destruct (text_eqb_spec k k0) as [->|Hk]; simpl.
  - destruct (text_eqb_spec q k0); reflexivity.
  - destruct (text_eqb_spec q k0) as [->|Hq]; [|exact IH].
    destruct (text_eqb_spec k0 k); [congruence | reflexivity].
Qed.

Lemma complete_not_incomplete (hs : list text) :
  missing_columns (_auto_identify_columns hs) = [] ->
  incomplete (_auto_identify_columns hs) = false.
Proof.
  unfold missing_columns. intro H. apply map_eq_nil in H.
  assert (Hex : existsb (fun entry => falsy (snd entry))
                  (_auto_identify_columns hs) = false).
  { destruct (existsb (fun entry => falsy (snd entry))
                (_auto_identify_columns hs)) eqn:E; [|reflexivity].
    apply existsb_exists in E. destruct E as (x & Hx & Hf).
    assert (Hin : In x (filter (fun entry => falsy (snd entry))
                          (_auto_identify_columns hs)))
      by (apply filter_In; auto).
    rewrite H in Hin. contradiction. }
  unfold incomplete. pose proof (auto_identify_keys hs) as Hk.
  destruct (_auto_identify_columns hs); [discriminate Hk | exact Hex].
Qed.

Lemma complete_column (hs : list text) (std_col : text) :
  In std_col (map fst column_mapping) ->
  missing_columns (_auto_identify_columns hs) = [] ->
  exists col, mapping_get (_auto_identify_columns hs) std_col = Some col.
Proof.
  intros Hin Hm.
  destruct (mapping_get (_auto_identify_columns hs) std_col) as [col|] eqn:E;
    [exists col; reflexivity|].
  exfalso.
  assert (Hmiss : In std_col (missing_columns (_auto_identify_columns hs))).
  { apply missing_columns_spec.
    - rewrite auto_identify_keys. apply column_mapping_keys_nodup.
    - rewrite auto_identify_keys, E. auto. }
  rewrite Hm in Hmiss. contradiction.
Qed.

(** The layers that a complete mapping reads from a group of rows. *)
Lemma rows_layers_complete (mapping : list (text * option text))
    (c_ds c_N c_di : text) (rows : list row) :
  mapping_get mapping (py "Saturated soil depth ds(m)") = Some c_ds ->
  mapping_get mapping (py "Measured N-value") = Some c_N ->
  mapping_get mapping (py "Layer thickness di(m)") = Some c_di ->
  rows_layers cell mapping rows
  = Returned
      (map (fun r => Calc.mk_layer (cell r c_ds) (cell r c_N) (cell r c_di))
         rows).
Proof.
  intros Hds HN Hdi. induction rows as [|r rows IH]; simpl; [reflexivity|].
  unfold row_layer, row_cell. rewrite Hds, HN, Hdi, IH. reflexivity.
Qed.

Lemma calculate_invalid (d : Calc.data) :
  ~ In (Calc.d_intensity d) [7; 8; 9]%Z ->
  Calc.calculate_liquefaction_index d
  = Calc.Raise (Calc.KeyError (Calc.d_intensity d)).
Proof.
  intro H. unfold Calc.calculate_liquefaction_index.
  now rewrite (N0_map_invalid _ H).
Qed.

(** X18.  With a complete mapping and imported points, an intensity other
    than 7, 8, 9 makes both calculations stop at the first point: no result
    is stored, and the error dialog shows the intensity. *)
Theorem X18_invalid_intensity_stores_nothing (w : window frame) (f : form)
    (hs : list text) (intensity depth_criteria : Z) (dw : Q) :
  current_column_mapping (page w) = _auto_identify_columns hs ->
  missing_columns (_auto_identify_columns hs) = [] ->
  imported_points (page w) <> [] ->
  import_intensity f = Returned intensity ->
  import_depth f = Returned depth_criteria ->
  import_dw f = Returned dw ->
  ~ In intensity [7; 8; 9]%Z ->
  calculate_all f w
  = show w (showerror (py "Error")
              (py "Calculation failed: " ++ str_int intensity)) /\
  forall point_id,
    points_get (imported_points (page w)) point_id <> None ->
    calculate_selected f (Some point_id) w
    = show w (showerror (py "Error")
                (py "Calculation failed: " ++ str_int intensity)).
Proof.
  intros Hmap Hm Hpts Hi Hd Hw Hbad.
  pose proof (complete_not_incomplete hs Hm) as Hinc.
  destruct (complete_column hs (py "Saturated soil depth ds(m)")) as [c_ds Hds];
    [simpl; auto | exact Hm |].
  destruct (complete_column hs (py "Measured N-value")) as [c_N HN];
    [simpl; auto | exact Hm |].
  destruct (complete_column hs (py "Layer thickness di(m)")) as [c_di Hdi];
    [simpl; auto | exact Hm |].
  assert (Hpoint : forall point_id point_data res,
    calculate_point iterrows cell (_auto_identify_columns hs) intensity
      depth_criteria dw point_id point_data res
    = Raised (str_int intensity)).
  { intros. unfold calculate_point.
    rewrite (rows_layers_complete _ _ _ _ _ Hds HN Hdi).
    now rewrite calculate_invalid by exact Hbad. }
  split.
  - unfold calculate_all_imported_points. rewrite Hmap, Hinc, Hi, Hd, Hw.
    destruct (imported_points (page w)) as [|[point_id point_data] rest];
      [contradiction|].
    cbn [calculate_points]. rewrite Hpoint. unfold calculation_failed.
    destruct w; reflexivity.
  - intros point_id Hget. unfold calculate_import.
    rewrite Hmap, Hinc, Hi, Hd, Hw.
    destruct (imported_points (page w)) as [|p rest]; [contradiction|].
    destruct (points_get (p :: rest) point_id) as [point_data|];
      [|contradiction].
    rewrite Hpoint. reflexivity.
Qed.

(** ** All points of a table *)

Lemma calculate_points_valid (mapping : list (text * option text))
    (c_ds c_N c_di : text) (intensity depth_criteria : Z) (dw : Q) :
  mapping_get mapping (py "Saturated soil depth ds(m)") = Some c_ds ->
  mapping_get mapping (py "Measured N-value") = Some c_N ->
  mapping_get mapping (py "Layer thickness di(m)") = Some c_di ->
  In intensity [7; 8; 9]%Z ->
  forall (points : list (text * frame)) (res : results_dict),
  exists res',
    calculate_points iterrows cell mapping intensity depth_criteria dw points
      res = (res', None) /\
    (forall k,
       (forall point_id, In point_id (map fst points) ->
          k <> py "Imported Point " ++ point_id) ->
       results_get res' k = results_get res k) /\
    (NoDup (map fst points) ->
     forall point_id point_data, In (point_id, point_data) points ->
       exists r,
         Calc.calculate_liquefaction_index
           (Calc.mk_data intensity depth_criteria dw
              (map (fun r =>
                      Calc.mk_layer (cell r c_ds) (cell r c_N) (cell r c_di))
                 (iterrows point_data))) = Calc.Ok r /\
         results_get res' (py "Imported Point " ++ point_id) = Some r).
Proof.
  intros Hds HN Hdi Hi.
  induction points as [|[id0 df0] rest IH]; intro res.
  - exists res. split; [reflexivity|]. split; [reflexivity|].
    intros _ ? ? [].
  - assert (Hcalc : exists r0,
      Calc.calculate_liquefaction_index
        (Calc.mk_data intensity depth_criteria dw
           (map (fun r =>
                   Calc.mk_layer (cell r c_ds) (cell r c_N) (cell r c_di))
              (iterrows df0))) = Calc.Ok r0).
    { destruct (calculate_valid
                  (Calc.mk_data intensity depth_criteria dw
                     (map (fun r =>
                             Calc.mk_layer (cell r c_ds) (cell r c_N)
                               (cell r c_di))
                        (iterrows df0))) Hi) as (n0 & _ & H).
      eexists. exact H. }
    destruct Hcalc as [r0 Hcalc].
    destruct (IH (results_set res (py "Imported Point " ++ id0) r0))
      as (res' & Hloop & Hother & Hmine).
    exists res'. split; [|split].
    + cbn [calculate_points]. unfold calculate_point.
      rewrite (rows_layers_complete _ _ _ _ _ Hds HN Hdi), Hcalc.
      exact Hloop.
    + intros k Hk. rewrite Hother.
      * rewrite results_get_set.
        destruct (text_eqb_spec k (py "Imported Point " ++ id0)) as [E|_];
          [|reflexivity].
        exfalso. apply (Hk id0); [left; reflexivity | exact E].
      * intros point_id Hin. apply Hk. right. exact Hin.
    + intros Hnd point_id point_data [E|Hin].
      * injection E as <- <-. eexists. split; [exact Hcalc|].
        inversion Hnd as [|? ? Hnotin _]; subst.
        rewrite Hother.
        -- rewrite results_get_set, text_eqb_refl. reflexivity.
        -- intros point_id Hin E. apply app_inv_head in E. subst.
           contradiction.
      * inversion Hnd as [|? ? _ Hnd']; subst.
        exact (Hmine Hnd' point_id point_data Hin).
Qed.

(** ** The display that follows the calculation *)

Lemma measures_known_class (r : Calc.result) (c : string) :
  In c ["Category B"; "Category C"; "Category D"]%string ->
  exists message,
    Measures.measures_of_result r c = Measures.anti_measures_var_set message.
Proof.
  unfold Measures.measures_of_result.
  intros [<-|[<-|[<-|[]]]]; destruct (Calc.r_grade r);
    eexists; vm_compute; reflexivity.
Qed.

Lemma measures_unknown_class (r : Calc.result) (c : string) :
  ~ In c ["Category B"; "Category C"; "Category D"]%string ->
  Calc.r_grade r <> Calc.NoLiquefaction ->
  Measures.measures_of_result r c = Measures.KeyError c.
Proof.
  intros Hc Hg.
  unfold Measures.measures_of_result, Measures._update_anti_measures.
  assert (E : Measures.str_get Measures.anti_measures_map c = None).
  { unfold Measures.anti_measures_map. cbn [Measures.str_get].
    destruct (String.eqb_spec c "Category B") as [->|_];
      [exfalso; apply Hc; simpl; auto|].
    destruct (String.eqb_spec c "Category C") as [->|_];
      [exfalso; apply Hc; simpl; auto|].
    destruct (String.eqb_spec c "Category D") as [->|_];
      [exfalso; apply Hc; simpl; auto|].
    reflexivity. }
  rewrite E. destruct (Calc.r_grade r); [contradiction | | |]; reflexivity.
Qed.

Lemma display_known_class (res : results_dict) :
  In building_class ["Category B"; "Category C"; "Category D"]%string ->
  display_results repr building_class res = Returned tt.
Proof.
  intro Hc. destruct res as [|[k r] rest]; [reflexivity|].
  unfold display_results.
  destruct (measures_known_class r building_class Hc) as [m ->]. reflexivity.
Qed.

(** X19.  With a complete mapping and an intensity among 7, 8, 9,
    "Calculate All Points" stores for every imported point the result of its
    rows under the name "Imported Point " followed by the point id and
    leaves the results under all other names as they were, whatever the
    building class box holds.  When that box holds one of the three
    categories, no warning or error is shown and the number of points is
    reported.  When it holds another text and the first stored result has a
    grade other than "No liquefaction", the display of the results raises:
    the results stay stored, the error "Calculation failed: " with the text
    of the box is shown, and no completion is reported. *)
Theorem X19_all_points_calculated (w : window frame) (f : form)
    (hs : list text) (intensity depth_criteria : Z) (dw : Q) :
  current_column_mapping (page w) = _auto_identify_columns hs ->
  missing_columns (_auto_identify_columns hs) = [] ->
  imported_points (page w) <> [] ->
  NoDup (map fst (imported_points (page w))) ->
  import_intensity f = Returned intensity ->
  import_depth f = Returned depth_criteria ->
  import_dw f = Returned dw ->
  In intensity [7; 8; 9]%Z ->
  exists c_ds c_N c_di,
    mapping_get (_auto_identify_columns hs) (py "Saturated soil depth ds(m)")
    = Some c_ds /\
    mapping_get (_auto_identify_columns hs) (py "Measured N-value")
    = Some c_N /\
    mapping_get (_auto_identify_columns hs) (py "Layer thickness di(m)")
    = Some c_di /\
    (forall point_id point_data,
       In (point_id, point_data) (imported_points (page w)) ->
       exists r,
         Calc.calculate_liquefaction_index
           (Calc.mk_data intensity depth_criteria dw
              (map (fun r =>
                      Calc.mk_layer (cell r c_ds) (cell r c_N) (cell r c_di))
                 (iterrows point_data))) = Calc.Ok r /\
         results_get (results (calculate_all f w))
           (py "Imported Point " ++ point_id) = Some r) /\
    (forall k,
       (forall point_id, In point_id (map fst (imported_points (page w))) ->
          k <> py "Imported Point " ++ point_id) ->
       results_get (results (calculate_all f w)) k
       = results_get (results w) k) /\
    imported_points (page (calculate_all f w)) = imported_points (page w) /\
    current_column_mapping (page (calculate_all f w))
    = current_column_mapping (page w) /\
    (In building_class ["Category B"; "Category C"; "Category D"]%string ->
     page (calculate_all f w) = page w /\
     infos (calculate_all f w)
     = infos w ++
       [(py "Complete",
         py "Successfully calculated "
         ++ str_int (Z.of_nat (List.length (imported_points (page w))))
         ++ py " points")]) /\
    (~ In building_class ["Category B"; "Category C"; "Category D"]%string ->
     forall name r rest,
       results (calculate_all f w) = (name, r) :: rest ->
       Calc.r_grade r <> Calc.NoLiquefaction ->
       infos (calculate_all f w) = infos w /\
       dialogs (page (calculate_all f w))
       = dialogs (page w)
         ++ [showerror (py "Error")
               (py "Calculation failed: " ++ repr (py building_class))]).
Proof.
  intros Hmap Hm Hpts Hnd Hi Hd Hw Hvalid.
  pose proof (complete_not_incomplete hs Hm) as Hinc.
  destruct (complete_column hs (py "Saturated soil depth ds(m)")) as [c_ds Hds];
    [simpl; auto | exact Hm |].
  destruct (complete_column hs (py "Measured N-value")) as [c_N HN];
    [simpl; auto | exact Hm |].
  destruct (complete_column hs (py "Layer thickness di(m)")) as [c_di Hdi];
    [simpl; auto | exact Hm |].
  exists c_ds, c_N, c_di.
  split; [exact Hds|]. split; [exact HN|]. split; [exact Hdi|].
  destruct (calculate_points_valid _ _ _ _ intensity depth_criteria dw
              Hds HN Hdi Hvalid (imported_points (page w)) (results w))
    as (res' & Hloop & Hother & Hmine).
  assert (E : calculate_all f w
              = match display_results repr building_class res' with
                | Raised e =>
                    calculation_failed (mk_window (page w) res' (infos w)) e
                | Returned _ =>
                    mk_window (page w) res'
                      (infos w ++
                       [(py "Complete",
                         py "Successfully calculated "
                         ++ str_int
                              (Z.of_nat
                                 (List.length (imported_points (page w))))
                         ++ py " points")])
                end).
  { unfold calculate_all_imported_points.
    rewrite Hmap, Hinc, Hi, Hd, Hw.
    destruct (imported_points (page w)) as [|p rest] eqn:Ep; [contradiction|].
    rewrite Hloop. reflexivity. }
  assert (Hres : results (calculate_all f w) = res').
  { rewrite E. destruct (display_results repr building_class res');
      reflexivity. }
  rewrite Hres.
  split; [exact (Hmine Hnd)|]. split; [exact Hother|].
  split; [rewrite E; destruct (display_results repr building_class res');
          reflexivity|].
  split; [rewrite E; destruct (display_results repr building_class res');
          reflexivity|].
  split.
  - intro Hc. rewrite E, (display_known_class res' Hc). split; reflexivity.
  - intros Hc name r rest -> Hg. rewrite E. unfold display_results.
    rewrite (measures_unknown_class r building_class Hc Hg).
    split; reflexivity.
Qed.

End ImportPageFacts.

(** ** The properties on the example table *)

Section ImportPageExamples.

Import Reconciler ImportPage.

Lemma X17_witness :
  results
    (calculate_all_imported_points (fun df : example_frame => df) example_cell
       (fun t => t) "Category B" (example_form 7)
       (preview example_columns example_groupby
          (fun _ => Raised (py "No such file")) (fun _ _ => Returned tt)
          example_window (py "missing.xlsx")))
  = results example_window.
Proof.
  destruct (X17_rejected_table_is_not_calculated example_frame example_row
              (fun df => df) example_cell (fun t => t) example_columns
              example_groupby (fun _ => Raised (py "No such file"))
              (fun _ _ => Returned tt) "Category B"%string example_window
              (preview example_columns example_groupby
                 (fun _ => Raised (py "No such file"))
                 (fun _ _ => Returned tt) example_window (py "missing.xlsx"))
              (example_form 7) None (py "missing.xlsx"))
    as [[H _] _].
  - left. split; [exact I | reflexivity].
  - exact H.
Defined.

Lemma X18_witness :
  calculate_all_imported_points (fun df : example_frame => df) example_cell
    (fun t => t) "Category B" (example_form 6) example_window
  = show example_window
      (showerror (py "Error") (py "Calculation failed: 6")).
Proof.
  destruct (X18_invalid_intensity_stores_nothing example_frame example_row
              (fun df => df) example_cell (fun t => t) "Category B"%string
              example_window (example_form 6) standard_headers 6 15 2.0)
    as [H _];
    [ reflexivity | reflexivity | discriminate | reflexivity | reflexivity
    | reflexivity | simpl; intros [H|[H|[H|[]]]]; discriminate H
    | exact H ].
Defined.

(** The example table with the building class "Category B", and with a
    text that is not a building class: the default point is graded
    "Severe", so the second calculation stores the result and then fails in
    the display. *)
Lemma X19_witness :
  (exists r,
     results_get
       (results
          (calculate_all_imported_points (fun df : example_frame => df)
             example_cell (fun t => t) "Category B" (example_form 7)
             example_window))
       (py "Imported Point 1")
     = Some r /\
     Calc.r_grade r = Calc.Severe) /\
  infos
    (calculate_all_imported_points (fun df : example_frame => df)
       example_cell (fun t => t) "Category B" (example_form 7)
       example_window)
  = [(py "Complete", py "Successfully calculated 1 points")].
Proof.
  destruct (X19_all_points_calculated example_frame example_row
              (fun df => df) example_cell (fun t => t) "Category B"%string
              example_window (example_form 7) standard_headers 7 15 2.0)
    as (c_ds & c_N & c_di & Hds & HN & Hdi & H & _ & _ & _ & Hok & _);
    [ reflexivity | reflexivity | discriminate
    | repeat constructor; intros []
    | reflexivity | reflexivity | reflexivity | simpl; auto | ].
  split.
  - destruct (H (py "1") example_table) as (r & Hc & Hr); [left; reflexivity|].
    exists r. split; [exact Hr|].
    vm_compute in Hds, HN, Hdi.
    injection Hds as <-. injection HN as <-. injection Hdi as <-.
    vm_compute in Hc. injection Hc as <-. reflexivity.
  - destruct Hok as [_ Hinfo]; [simpl; auto|]. rewrite Hinfo.
    vm_compute. reflexivity.
Defined.

(** The same calculation when the building class box holds a text that is
    not in the table: the result is stored, then the display fails. *)
Example display_failure_after_calculation :
  let w := calculate_all_imported_points (fun df : example_frame => df)
             example_cell (fun t => [39%N] ++ t ++ [39%N]) "Category A"
             (example_form 7) example_window in
  (exists r, results w = [(py "Imported Point 1", r)] /\
             Calc.r_grade r = Calc.Severe) /\
  infos w = [] /\
  dialogs (page w)
  = [showerror (py "Error") (py "Calculation failed: 'Category A'")].
Proof.
  vm_compute. split; [|split; reflexivity].
  eexists. split; reflexivity.
Qed.

End ImportPageExamples.

(** * Part VIII: properties of the measures shown with a result *)

Section MeasuresFacts.

Import Calc Measures.

Local Open Scope string_scope.

Lemma str_get_none (A : Type) (d : list (string * A)) (k : string) :
  ~ In k (map fst d) -> str_get d k = None.
Proof.
  induction d as [|[k' v] d IH]; simpl; intro H; [reflexivity|].
  destruct (String.eqb_spec k k') as [->|_].
  - exfalso. apply H. left. reflexivity.
  - apply IH. intro Hin. apply H. right. exact Hin.
Qed.

(** X20.  The grades that the calculator produces agree with the keys of
    the table of measures: for every calculated result and each of the
    three building classes a text is shown, the fallback "No corresponding
    measures" never is, and the request to calculate first is shown exactly
    for the grade "No liquefaction".  A building class that is not one of
    the three raises [KeyError] for every other grade. *)
Theorem X20_measures_defined_for_every_grade (d : data)
    (building_class : string) :
  In (d_intensity d) [7; 8; 9]%Z ->
  exists r,
    calculate_liquefaction_index d = Ok r /\
    (In building_class ["Category B"; "Category C"; "Category D"] ->
     exists message,
       measures_of_result r building_class = anti_measures_var_set message /\
       message <> "No corresponding measures" /\
       (message = "Please calculate a valid liquefaction classification first"
        <-> r_grade r = NoLiquefaction)) /\
    (~ In building_class ["Category B"; "Category C"; "Category D"] ->
     r_grade r <> NoLiquefaction ->
     measures_of_result r building_class = KeyError building_class).
Proof.
  intro Hi. destruct (calculate_valid d Hi) as (n0 & _ & Hcalc).
  eexists. split; [exact Hcalc|]. unfold measures_of_result. simpl r_grade.
  set (g := classify _ _). clearbody g. split.
  - intros [<-|[<-|[<-|[]]]]; destruct g; eexists;
      (split; [reflexivity|]); (split; [discriminate|]);
      split; discriminate || reflexivity.
  - intros Hc Hg. unfold _update_anti_measures.
    assert (E : str_get anti_measures_map building_class = None)
      by (apply str_get_none; exact Hc).
    rewrite E. destruct g; try reflexivity. contradiction.
Qed.

Lemma X20_witness :
  exists r,
    calculate_liquefaction_index default_point = Ok r /\
    measures_of_result r "Category C"
    = anti_measures_var_set
        "Completely eliminate liquefaction settlement, or partially eliminate and treat foundation and superstructure".
Proof.
  destruct (X20_measures_defined_for_every_grade default_point "Category C")
    as (r & Hc & _ & _); [simpl; auto|].
  exists r. split; [exact Hc|].
  vm_compute in Hc. injection Hc as <-. reflexivity.
Defined.

End MeasuresFacts.

(** * Part IX: properties of the site points of the manual input page *)

Section ManualPageFacts.

Import Reconciler ManualPage.

(** ** Python list operations *)

Lemma position_valid (A : Type) (l : list A) (i : Z) :
  (0 <= i < Z.of_nat (List.length l))%Z -> position l i = Some (Z.to_nat i).
Proof.
  intro H. unfold position.
  destruct (Z.leb_spec 0 i); [|lia].
  destruct (Z.ltb_spec i (Z.of_nat (List.length l))); [|lia].
  reflexivity.
Qed.

Lemma getitem_valid (A : Type) (l : list A) (i : Z) :
  (0 <= i < Z.of_nat (List.length l))%Z ->
  exists x, nth_error l (Z.to_nat i) = Some x /\ getitem l i = Done x.
Proof.
  intro H. unfold getitem. rewrite (position_valid _ _ _ H).
  destruct (nth_error l (Z.to_nat i)) as [x|] eqn:E.
  - exists x. auto.
  - apply nth_error_None in E. lia.
Qed.

Lemma replace_at_length (A : Type) (l : list A) (k : nat) (y : A) :
  List.length (replace_at l k y) = List.length l.
Proof.
  revert k. induction l as [|x l IH]; intros [|k]; simpl; auto.
Qed.

Lemma replace_at_nth (A : Type) (l : list A) (k : nat) (y : A) :
  (k < List.length l)%nat -> nth_error (replace_at l k y) k = Some y.
Proof.
  revert k. induction l as [|x l IH]; intros [|k]; simpl; intro H;
    try lia; [reflexivity|].
  apply IH. lia.
Qed.

Lemma replace_at_replace (A : Type) (l : list A) (k : nat) (x y : A) :
  nth_error l k = Some x -> replace_at (replace_at l k y) k x = l.
Proof.
  revert k. induction l as [|z l IH]; intros [|k]; simpl; intro H;
    try discriminate.
  - now injection H as ->.
  - now rewrite (IH k H).
Qed.

Lemma Forall_replace_at (A : Type) (P : A -> Prop) (l : list A) (k : nat)
    (y : A) :
  Forall P l -> P y -> Forall P (replace_at l k y).
Proof.
  intros Hl Hy. revert k.
  induction Hl as [|x l Hx Hl IH]; intros [|k]; simpl; constructor; auto.
Qed.

Lemma remove_at_length (A : Type) (l : list A) (k : nat) :
  (k < List.length l)%nat ->
  S (List.length (remove_at l k)) = List.length l.
Proof.
  revert k. induction l as [|x l IH]; intros [|k]; simpl; intro H; try lia.
  rewrite IH; lia.
Qed.

Lemma Forall_remove_at (A : Type) (P : A -> Prop) (l : list A) (k : nat) :
  Forall P l -> Forall P (remove_at l k).
Proof.
  intro Hl. revert k.
  induction Hl as [|x l Hx Hl IH]; intros [|k]; simpl;
    try constructor; auto.
Qed.

Lemma remove_at_snoc (A : Type) (l : list A) (x : A) :
  remove_at (l ++ [x]) (List.length l) = l.
Proof. induction l as [|y l IH]; simpl; [reflexivity | now rewrite IH]. Qed.

Lemma update_valid (A : Type) (l : list A) (i : Z) (y : A) :
  (0 <= i < Z.of_nat (List.length l))%Z ->
  update l i y = replace_at l (Z.to_nat i) y.
Proof. intro H. unfold update. now rewrite (position_valid _ _ _ H). Qed.

(** ** The refreshes *)

Lemma refresh_combobox_valid (st : tab) :
  (0 <= current_point_idx st < Z.of_nat (List.length (points st)))%Z ->
  _refresh_point_combobox st
  = Done (mk_tab (points st) (current_point_idx st) (current_point_idx st)
            (intensity_var st) (depth_var st) (dw_var st) (warnings st)).
Proof.
  intro H. unfold _refresh_point_combobox.
  destruct (points st) as [|p ps] eqn:E; [simpl in H; lia|].
  destruct (Z.leb_spec 0 (current_point_idx st)); [|lia].
  destruct (Z.ltb_spec (current_point_idx st)
              (Z.of_nat (List.length (p :: ps)))); [|lia].
  reflexivity.
Qed.

Lemma refresh_entries_valid (st : tab) :
  (0 <= current_point_idx st < Z.of_nat (List.length (points st)))%Z ->
  _refresh_layer_entries st = Done st.
Proof.
  intro H. unfold _refresh_layer_entries.
  destruct (getitem_valid _ _ _ H) as (p & _ & ->). reflexivity.
Qed.

Lemma on_point_changed_valid (st : tab) :
  (0 <= point_combobox st < Z.of_nat (List.length (points st)))%Z ->
  exists p,
    nth_error (points st) (Z.to_nat (point_combobox st)) = Some p /\
    _on_point_changed st
    = Done (mk_tab (points st) (point_combobox st) (point_combobox st)
              (p_intensity p) (p_depth_criteria p) (p_dw p) (warnings st)).
Proof.
  intro H. unfold _on_point_changed. cbn [points current_point_idx].
  destruct (getitem_valid _ _ _ H) as (p & Hp & ->).
  exists p. split; [exact Hp|].
  rewrite refresh_entries_valid; [reflexivity | exact H].
Qed.

(** ** What each button does to a consistent state *)

Lemma add_point_spec (st : tab) :
  consistent st ->
  _add_point st
  = Done (mk_tab (points st ++ [_create_default_point])
            (Z.of_nat (List.length (points st)))
            (Z.of_nat (List.length (points st)))
            (p_intensity _create_default_point)
            (p_depth_criteria _create_default_point)
            (p_dw _create_default_point) (warnings st)).
Proof.
  intros _. unfold _add_point.
  assert (E : (Z.of_nat (List.length (points st ++ [_create_default_point]))
               - 1 = Z.of_nat (List.length (points st)))%Z).
  { rewrite length_app. simpl. lia. }
  rewrite E.
  rewrite refresh_combobox_valid;
    [|cbn [points current_point_idx]; rewrite length_app; simpl; lia].
  cbn [points current_point_idx intensity_var depth_var dw_var warnings].
  rewrite refresh_entries_valid;
    [|cbn [points current_point_idx]; rewrite length_app; simpl; lia].
  reflexivity.
Qed.

Lemma remove_point_spec (st : tab) :
  consistent st ->
  (1 < List.length (points st))%nat ->
  exists p,
    nth_error (remove_at (points st) (Z.to_nat (current_point_idx st)))
      (Z.to_nat (Z.max 0 (current_point_idx st - 1))) = Some p /\
    _remove_point st
    = Done (mk_tab (remove_at (points st) (Z.to_nat (current_point_idx st)))
              (Z.max 0 (current_point_idx st - 1))
              (Z.max 0 (current_point_idx st - 1))
              (p_intensity p) (p_depth_criteria p) (p_dw p) (warnings st)).
Proof.
  intros (Hidx & _ & _) Hlen. unfold _remove_point.
  destruct (Nat.leb_spec (List.length (points st)) 1); [lia|].
  unfold delitem. rewrite (position_valid _ _ _ Hidx).
  pose proof (remove_at_length _ (points st) (Z.to_nat (current_point_idx st)))
    as Hrm.
  assert (Hrange :
    (0 <= Z.max 0 (current_point_idx st - 1)
     < Z.of_nat
         (List.length
            (remove_at (points st) (Z.to_nat (current_point_idx st)))))%Z)
    by lia.
  rewrite refresh_combobox_valid by exact Hrange.
  cbn [points current_point_idx intensity_var depth_var dw_var warnings].
  destruct (on_point_changed_valid
              (mk_tab (remove_at (points st) (Z.to_nat (current_point_idx st)))
                 (Z.max 0 (current_point_idx st - 1))
                 (Z.max 0 (current_point_idx st - 1))
                 (intensity_var st) (depth_var st) (dw_var st) (warnings st))
              Hrange) as (p & Hp & E).
  exists p. split; [exact Hp | exact E].
Qed.

Lemma set_layers_spec (st : tab) (p : point) (layers : list Calc.layer) :
  (0 <= current_point_idx st < Z.of_nat (List.length (points st)))%Z ->
  _refresh_layer_entries (set_layers st p layers)
  = Done (mk_tab
            (replace_at (points st) (Z.to_nat (current_point_idx st))
               (mk_point (p_intensity p) (p_depth_criteria p) (p_dw p) layers))
            (current_point_idx st) (point_combobox st) (intensity_var st)
            (depth_var st) (dw_var st) (warnings st)).
Proof.
  intro H. unfold set_layers. rewrite (update_valid _ _ _ _ H).
  rewrite refresh_entries_valid; [reflexivity|].
  cbn [points current_point_idx]. now rewrite replace_at_length.
Qed.

Lemma consistent_set_layers (st : tab) (p : point)
    (layers : list Calc.layer) :
  consistent st -> layers <> [] ->
  consistent
    (mk_tab
       (replace_at (points st) (Z.to_nat (current_point_idx st))
          (mk_point (p_intensity p) (p_depth_criteria p) (p_dw p) layers))
       (current_point_idx st) (point_combobox st) (intensity_var st)
       (depth_var st) (dw_var st) (warnings st)).
Proof.
  intros (Hidx & Hcb & Hl) Hne. unfold consistent.
  cbn [points current_point_idx point_combobox]. rewrite replace_at_length.
  split; [exact Hidx|]. split; [exact Hcb|].
  apply Forall_replace_at; [exact Hl | exact Hne].
Qed.

(** X21.  From the initial state on, the point and layer buttons never
    raise and keep the state consistent: the current index is a position of
    the list of points, so at least one point exists, and every point keeps
    at least one layer. *)
Theorem X21_points_stay_consistent (st : tab) :
  consistent st ->
  (exists st', _add_point st = Done st' /\ consistent st') /\
  (exists st', _remove_point st = Done st' /\ consistent st') /\
  (forall i, (0 <= i < Z.of_nat (List.length (points st)))%Z ->
     exists st', select_point i st = Done st' /\ consistent st') /\
  (exists st', add_layer st = Done st' /\ consistent st') /\
  (exists st', remove_layer st = Done st' /\ consistent st') /\
  (exists st', clear_manual_input st = Done st' /\ consistent st').
Proof.
  intro Hc. pose proof Hc as (Hidx & Hcb & Hl).
  destruct (getitem_valid _ _ _ Hidx) as (p & Hp & Hget).
  split; [|split; [|split; [|split; [|split]]]].
  - eexists. split; [apply add_point_spec; exact Hc|].
    unfold consistent. cbn [points current_point_idx point_combobox].
    rewrite length_app. simpl. split; [lia|]. split; [reflexivity|].
    apply Forall_app. split; [exact Hl|].
    constructor; [discriminate | constructor].
  - destruct (Nat.leb_spec (List.length (points st)) 1) as [Hle|Hgt].
    + exists (warn st (py "At least one site point must be retained")).
      split; [|exact Hc]. unfold _remove_point.
      destruct (Nat.leb_spec (List.length (points st)) 1); [reflexivity | lia].
    + destruct (remove_point_spec st Hc Hgt) as (q & _ & E).
      eexists. split; [exact E|].
      unfold consistent. cbn [points current_point_idx point_combobox].
      pose proof (remove_at_length _ (points st)
                    (Z.to_nat (current_point_idx st))) as Hrm.
      split; [lia|]. split; [reflexivity|].
      apply Forall_remove_at. exact Hl.
  - intros i Hi. unfold select_point.
    destruct (on_point_changed_valid
                (mk_tab (points st) (current_point_idx st) i (intensity_var st)
                   (depth_var st) (dw_var st) (warnings st)) Hi)
      as (q & _ & E).
    eexists. split; [exact E|].
    unfold consistent. cbn [points current_point_idx point_combobox].
    auto.
  - unfold add_layer. rewrite Hget. eexists.
    split; [apply set_layers_spec; exact Hidx|].
    apply consistent_set_layers; [exact Hc|].
    intro E. apply app_eq_nil in E. destruct E as [_ E]. discriminate E.
  - unfold remove_layer. rewrite Hget.
    destruct (Nat.leb_spec (List.length (p_layers p)) 1) as [Hle|Hgt].
    + eexists. split; [reflexivity | exact Hc].
    + eexists. split; [apply set_layers_spec; exact Hidx|].
      apply consistent_set_layers; [exact Hc|].
      destruct (p_layers p) as [|l1 [|l2 ls]]; simpl in Hgt; try lia.
      simpl. discriminate.
  - unfold clear_manual_input. cbn [points current_point_idx]. rewrite Hget.
    eexists. split.
    + apply (set_layers_spec
               (mk_tab (points st) (current_point_idx st) (point_combobox st)
                  (py "7") (py "15") 2.0%Q (warnings st))).
      exact Hidx.
    + apply (consistent_set_layers
               (mk_tab (points st) (current_point_idx st) (point_combobox st)
                  (py "7") (py "15") 2.0%Q (warnings st)));
        [exact Hc | discriminate].
Qed.

Lemma consistent_initial : consistent initial.
Proof.
  unfold consistent, initial. simpl. split; [lia|]. split; [reflexivity|].
  constructor; [discriminate | constructor].
Qed.

(** ** Adding and deleting again *)

(** X22.  In a consistent state, "Add Soil Layer" followed by "Delete Last
    Layer" gives the state back without a warning, and "Add Point" followed
    by "Delete Point" gives the list of points back, with the last of them
    selected. *)
Theorem X22_add_then_delete (st : tab) :
  consistent st ->
  (exists st1, add_layer st = Done st1 /\ remove_layer st1 = Done st) /\
  (exists st1 st2,
     _add_point st = Done st1 /\ _remove_point st1 = Done st2 /\
     points st2 = points st /\
     current_point_idx st2 = (Z.of_nat (List.length (points st)) - 1)%Z /\
     warnings st2 = warnings st).
Proof.
  intro Hc. pose proof Hc as (Hidx & Hcb & Hl).
  destruct (getitem_valid _ _ _ Hidx) as (p & Hp & Hget).
  assert (Hk : (Z.to_nat (current_point_idx st) < List.length (points st))%nat)
    by lia.
  split.
  - eexists. split.
    + unfold add_layer. rewrite Hget. apply set_layers_spec. exact Hidx.
    + unfold remove_layer. cbn [points current_point_idx].
      unfold getitem. rewrite position_valid by (rewrite replace_at_length; lia).
      rewrite (replace_at_nth _ _ _ _ Hk). cbn [p_layers].
      assert (Hne : p_layers p <> []).
      { rewrite Forall_forall in Hl. apply Hl.
        apply nth_error_In with (1 := Hp). }
      destruct (Nat.leb_spec
                  (List.length
                     (p_layers p ++
                      [Calc.mk_layer
                         (match p_layers p with
                          | [] => 1.5
                          | _ :: _ =>
                              Calc.l_ds (last (p_layers p) (Calc.mk_layer 0 0 0))
                          end + 3.0)
                         (inject_Z
                            (12 + Z.of_nat (List.length (p_layers p)) * 2))
                         3.0])) 1) as [Hle|_].
      { rewrite length_app in Hle. simpl in Hle.
        destruct (p_layers p); [contradiction | simpl in Hle; lia]. }
      rewrite removelast_last.
      rewrite set_layers_spec
        by (cbn [points current_point_idx]; rewrite replace_at_length; lia).
      cbn [points current_point_idx point_combobox intensity_var depth_var
             dw_var warnings p_intensity p_depth_criteria p_dw].
      assert (Ep : mk_point (p_intensity p) (p_depth_criteria p) (p_dw p)
                     (p_layers p) = p) by (destruct p; reflexivity).
      rewrite Ep, (replace_at_replace _ _ _ _ _ Hp).
      destruct st; reflexivity.
  - pose proof (add_point_spec st Hc) as E1.
    set (st1 := mk_tab (points st ++ [_create_default_point])
                  (Z.of_nat (List.length (points st)))
                  (Z.of_nat (List.length (points st)))
                  (p_intensity _create_default_point)
                  (p_depth_criteria _create_default_point)
                  (p_dw _create_default_point) (warnings st)) in *.
    assert (Hc1 : consistent st1).
    { unfold consistent, st1. cbn [points current_point_idx point_combobox].
      rewrite length_app. simpl. split; [lia|]. split; [reflexivity|].
      apply Forall_app. split; [exact Hl|].
      constructor; [discriminate | constructor]. }
    assert (Hlen1 : (1 < List.length (points st1))%nat).
    { unfold st1. cbn [points]. rewrite length_app. simpl. lia. }
    destruct (remove_point_spec st1 Hc1 Hlen1) as (q & _ & E2).
    exists st1. eexists. split; [exact E1|]. split; [exact E2|].
    cbn [points current_point_idx warnings]. unfold st1.
    cbn [points current_point_idx warnings].
    rewrite Nat2Z.id, remove_at_snoc. split; [reflexivity|].
    split; [lia | reflexivity].
Qed.

Lemma X21_witness :
  exists st', add_layer initial = Done st' /\ consistent st'.
Proof.
  destruct (X21_points_stay_consistent initial consistent_initial)
    as (_ & _ & _ & H & _).
  exact H.
Defined.

Lemma X22_witness :
  exists st1, add_layer initial = Done st1 /\ remove_layer st1 = Done initial.
Proof.
  destruct (X22_add_then_delete initial consistent_initial) as [H _].
  exact H.
Defined.

End ManualPageFacts.
